(** * Rule-configuration compiler of the wire-transfer form

  A shallow embedding of [src/validation/buildYupSchema.ts] and
  [src/validation/holidays.ts], with the parts of the JavaScript
  runtime, of yup and of date-fns that these two files call, and of
  their callers: the loader [src/validation/validationConfigLoader.ts]
  and the loading of the configuration in
  [src/components/WireTransferForm.tsx].

  Conventions of the embedding.
  - A JavaScript string is a [string]; one [ascii] is one code unit, so
    the strings covered are those of the Latin-1 range.
  - A [Date] is its time value in milliseconds since the epoch, or the
    invalid date.  Local time is taken to be UTC.
  - The current instant ([new Date()]) is an explicit argument [now].
  - [console.warn] and [console.error] append to a list of diagnostics.
  - A promise is what it settles to; the delay of the mock fetch is
    left out.  The state of the component is a record, and a render is
    a function of it.
  - yup renders a message by interpolating tokens of the form
    dollar-brace.  The model hands a message through unchanged, which is
    what yup does with a message that has no such token: a theorem that
    gives the text of a message has the hypothesis [reportedAsRendered],
    that the messages of the field have none.
  - The lengths and the numbers of a rule are integers; a length is
    printed into a message as JavaScript prints a safe integer. *)

From Stdlib Require Import ZArith String Ascii List Bool Lia.
From stdpp Require Import base option gmap strings.
Import ListNotations.

Local Open Scope string_scope.
Local Open Scope Z_scope.

(** ** JavaScript strings *)

Module JsString.

(** Code of a code unit. *)
Definition code (c : ascii) : N := N_of_ascii c.

(** [WhiteSpace] and [LineTerminator] code points below 256:
    TAB, LF, VT, FF, CR, SP and NBSP. *)
Definition isWhiteSpace (c : ascii) : bool :=
  let n := code c in
  ((9 <=? n) && (n <=? 13) || (n =? 32) || (n =? 160))%N.

Fixpoint trimStart (s : string) : string :=
  match s with
  | EmptyString => EmptyString
  | String c s' => if isWhiteSpace c then trimStart s' else s
  end.

Fixpoint trimEnd (s : string) : string :=
  match s with
  | EmptyString => EmptyString
  | String c s' =>
      match trimEnd s' with
      | EmptyString => if isWhiteSpace c then EmptyString else String c EmptyString
      | t => String c t
      end
  end.

(** [String.prototype.trim]. *)
Definition trim (s : string) : string := trimEnd (trimStart s).

Definition isEmpty (s : string) : bool :=
  match s with EmptyString => true | _ => false end.

(** [s.length] as an integer. *)
Definition len (s : string) : Z := Z.of_nat (String.length s).

Fixpoint drop (n : nat) (s : string) : string :=
  match n, s with
  | O, _ => s
  | S n', String _ s' => drop n' s'
  | S _, EmptyString => EmptyString
  end.

(** First occurrence of [pat] in [s]: the text before it and the text
    after it. *)
Fixpoint splitAtFirst (pat s : string) : option (string * string) :=
  if String.prefix pat s then Some (EmptyString, drop (String.length pat) s)
  else match s with
       | EmptyString => None
       | String c s' =>
           match splitAtFirst pat s' with
           | Some (b, a) => Some (String c b, a)
           | None => None
           end
       end.

(** [GetSubstitution] for a string pattern (no captures): [$$] is a
    dollar, [$&] the matched text, [$`] the text before the match,
    [$'] the text after it; any other dollar stands for itself. *)
Fixpoint getSubstitution (matched before after rep : string) : string :=
  match rep with
  | EmptyString => EmptyString
  | String c rest =>
      if Ascii.eqb c "$" then
        match rest with
        | String d rest' =>
            if Ascii.eqb d "$" then
              String "$" (getSubstitution matched before after rest')
            else if Ascii.eqb d "&" then
              matched ++ getSubstitution matched before after rest'
            else if Ascii.eqb d "`" then
              before ++ getSubstitution matched before after rest'
            else if Ascii.eqb d "'" then
              after ++ getSubstitution matched before after rest'
            else String c (getSubstitution matched before after rest)
        | EmptyString => String c EmptyString
        end
      else String c (getSubstitution matched before after rest)
  end.

(** [s.replace(pat, rep)] with a string pattern: only the first
    occurrence is replaced. *)
Definition replace (pat rep s : string) : string :=
  match splitAtFirst pat s with
  | None => s
  | Some (before, after) => before ++ getSubstitution pat before after rep ++ after
  end.

(** [arr.join(sep)] on an array of strings. *)
Fixpoint join (sep : string) (l : list string) : string :=
  match l with
  | [] => EmptyString
  | [x] => x
  | x :: rest => x ++ sep ++ join sep rest
  end.

(** The character of a decimal digit. *)
Definition digitChar (d : Z) : ascii := ascii_of_N (48 + Z.to_N d).

(** The decimal digits of [0 <= n], at most [fuel] of them, before
    [acc]. *)
Fixpoint digits (fuel : nat) (n : Z) (acc : string) : string :=
  match fuel with
  | O => acc
  | S fuel' =>
      let acc' := String (digitChar (n mod 10)) acc in
      if n <? 10 then acc' else digits fuel' (n / 10) acc'
  end.

(** [String(n)] for an integer [n] below 10^21 in absolute value, the
    range in which JavaScript prints an integer with all its digits. *)
Definition ofZ (n : Z) : string :=
  if n <? 0 then String "-" (digits 21 (- n) EmptyString)
  else digits 21 n EmptyString.

Definition isUpperAZ (c : ascii) : bool :=
  let n := code c in ((65 <=? n) && (n <=? 90))%N.

(** [toLowerCase] on one Latin-1 code unit. *)
Definition lowerChar (c : ascii) : ascii :=
  let n := code c in
  if ((65 <=? n) && (n <=? 90) || (192 <=? n) && (n <=? 222) && negb (n =? 215))%N
  then ascii_of_N (n + 32) else c.

Fixpoint toLowerCase (s : string) : string :=
  match s with
  | EmptyString => EmptyString
  | String c s' => String (lowerChar c) (toLowerCase s')
  end.

(** [s.replace(/([A-Z])/g, ' $1')]: a space before every capital. *)
Fixpoint spaceBeforeCapitals (s : string) : string :=
  match s with
  | EmptyString => EmptyString
  | String c s' =>
      if isUpperAZ c then String " " (String c (spaceBeforeCapitals s'))
      else String c (spaceBeforeCapitals s')
  end.

(** Does [s] contain [pat]? *)
Definition includes (pat s : string) : bool :=
  match splitAtFirst pat s with Some _ => true | None => false end.

End JsString.

(** ** Dates: the time value of a JavaScript [Date], and date-fns *)

Module JsDate.

Inductive Date : Type :=
| InvalidDate
| Time (t : Z).

Definition msPerDay : Z := 86400000.

(** [TimeClip]: a time value beyond 8.64e15 ms is not a date. *)
Definition timeClip (t : Z) : Date :=
  if Z.abs t <=? 8640000000000000 then Time t else InvalidDate.

(** [isValid] of date-fns. *)
Definition isValid (d : Date) : bool :=
  match d with Time _ => true | InvalidDate => false end.

(** [isEqual] of date-fns: equal time values. *)
Definition isEqual (a b : Date) : bool :=
  match a, b with
  | Time x, Time y => x =? y
  | _, _ => false
  end.

(** Day number of a time value. *)
Definition day (t : Z) : Z := t / msPerDay.

(** Day number of a civil date of the proleptic Gregorian calendar,
    month in 1..12 ([MakeDay]). *)
Definition makeDay (y m d : Z) : Z :=
  let y' := if m <=? 2 then y - 1 else y in
  let era := y' / 400 in
  let yoe := y' - era * 400 in
  let mp := if m <=? 2 then m + 9 else m - 3 in
  let doy := (153 * mp + 2) / 5 + d - 1 in
  let doe := yoe * 365 + yoe / 4 - yoe / 100 + doy in
  era * 146097 + doe - 719468.

(** Year, month (1..12) and day of month of a day number
    ([YearFromTime], [MonthFromTime], [DateFromTime]). *)
Definition civil (z : Z) : Z * Z * Z :=
  let z := z + 719468 in
  let era := z / 146097 in
  let doe := z - era * 146097 in
  let yoe := (doe - doe / 1460 + doe / 36524 - doe / 146096) / 365 in
  let doy := doe - (365 * yoe + yoe / 4 - yoe / 100) in
  let mp := (5 * doy + 2) / 153 in
  let d := doy - (153 * mp + 2) / 5 + 1 in
  let m := if mp <? 10 then mp + 3 else mp - 9 in
  let y := yoe + era * 400 in
  (if m <=? 2 then y + 1 else y, m, d).

Definition getFullYear (t : Z) : Z := fst (fst (civil (day t))).
Definition getMonth1 (t : Z) : Z := snd (fst (civil (day t))).
Definition getDate (t : Z) : Z := snd (civil (day t)).

(** [date.getDay()]: 0 is Sunday, 6 is Saturday. *)
Definition getDay (t : Z) : Z := (day t + 4) mod 7.

(** [startOfDay] of date-fns, on the time value of a valid date. *)
Definition startOfDay (t : Z) : Z := day t * msPerDay.

Fixpoint zeros (n : nat) : string :=
  match n with
  | O => EmptyString
  | S n' => String "0" (zeros n')
  end.

(** [s.padStart(k, "0")]. *)
Definition padStart (k : nat) (s : string) : string :=
  zeros (k - String.length s) ++ s.

(** [addLeadingZeros] of date-fns. *)
Definition addLeadingZeros (n : Z) (targetLength : nat) : string :=
  (if n <? 0 then "-" else "") ++ padStart targetLength (JsString.ofZ (Z.abs n)).

(** The [y] formatter of date-fns prints the year of the era: year 0 of
    the time value is printed as 1, year -1 as 2, and so on. *)
Definition eraYear (signedYear : Z) : Z :=
  if signedYear >? 0 then signedYear else 1 - signedYear.

(** [format(date, 'yyyy-MM-dd')] on a valid date. *)
Definition format_yyyy_MM_dd (t : Z) : string :=
  addLeadingZeros (eraYear (getFullYear t)) 4 ++ "-" ++
  addLeadingZeros (getMonth1 t) 2 ++ "-" ++
  addLeadingZeros (getDate t) 2.

Definition digitVal (c : ascii) : option Z :=
  let n := JsString.code c in
  if ((48 <=? n) && (n <=? 57))%N then Some (Z.of_N n - 48) else None.

Fixpoint digitsVal (acc : Z) (l : list ascii) : option Z :=
  match l with
  | [] => Some acc
  | c :: l' =>
      match digitVal c with
      | Some v => digitsVal (10 * acc + v) l'
      | None => None
      end
  end.

Definition isLeapYearIndex (year : Z) : bool :=
  (year mod 400 =? 0) || ((year mod 4 =? 0) && negb (year mod 100 =? 0)).

Definition daysInMonth (year month : Z) : Z :=
  if month =? 2 then (if isLeapYearIndex year then 29 else 28)
  else if (month =? 4) || (month =? 6) || (month =? 9) || (month =? 11) then 30
  else 31.

(** [validateDate] of date-fns, month in 1..12. *)
Definition validateDate (year month d : Z) : bool :=
  (1 <=? month) && (month <=? 12) && (1 <=? d) && (d <=? daysInMonth year month).

(** The date built by [parseISO] from a year, a month and a day. *)
Definition dateOfCivil (year month d : Z) : Date :=
  if validateDate year month d then timeClip (makeDay year month d * msPerDay)
  else InvalidDate.

(** [parseISO] on a complete calendar date in extended format:
    [YYYY-MM-DD], or [+YYYYYY-MM-DD] and [-YYYYYY-MM-DD] with the two
    additional year digits date-fns allows.  [None] for another form. *)
Definition parseCalendarDate (s : string) : option Date :=
  let hy c := Ascii.eqb c "-" in
  match list_ascii_of_string s with
  | [y1; y2; y3; y4; h1; m1; m2; h2; d1; d2] =>
      if hy h1 && hy h2 then
        match digitsVal 0 [y1; y2; y3; y4], digitsVal 0 [m1; m2], digitsVal 0 [d1; d2] with
        | Some y, Some m, Some d => Some (dateOfCivil y m d)
        | _, _, _ => None
        end
      else None
  | [sg; y1; y2; y3; y4; y5; y6; h1; m1; m2; h2; d1; d2] =>
      if (hy sg || Ascii.eqb sg "+") && hy h1 && hy h2 then
        match digitsVal 0 [y1; y2; y3; y4; y5; y6], digitsVal 0 [m1; m2], digitsVal 0 [d1; d2] with
        | Some y, Some m, Some d => Some (dateOfCivil (if hy sg then - y else y) m d)
        | _, _, _ => None
        end
      else None
  | _ => None
  end.

End JsDate.


Import JsDate.

(** ** The host: numbers, regular expressions, the rest of [parseISO] *)

(** The output of [console.warn] and [console.error]. *)
Inductive Diagnostic : Type :=
| ConsoleWarn (text : string)
| ConsoleError (text : string).

(** JavaScript numbers with what the runtime does with them: [String(n)],
    [isNaN(n)] and [a <= b]. *)
Class Numbers : Type := {
  num : Type;
  numToString : num -> string;
  num_isNaN : num -> bool;
  num_leb : num -> num -> bool
}.

(** A raw candidate value.  [VArray] and [VPlainObject] stand for any
    array and any plain object. *)
Inductive value `{Numbers} : Type :=
| VUndefined
| VNull
| VBool (b : bool)
| VNumber (n : num)
| VString (s : string)
| VArray
| VPlainObject.

(** What the two files leave to their libraries:
    - [yupNumberCast]: the transform of [yup.number()] on a value that is
      neither [null] nor [undefined];
    - [newRegExp]: [new RegExp(pattern)], [None] when the constructor
      throws a [SyntaxError], otherwise the predicate
      [fun s => s.search(regex) !== -1];
    - [parseISO_other]: [parseISO] on every form of ISO 8601 string other
      than a complete calendar date (with a time of day, a week date, an
      ordinal date, a reduced date). *)
Class Host `{Numbers} : Type := {
  yupNumberCast : value -> num;
  newRegExp : string -> option (string -> bool);
  parseISO_other : string -> Date
}.

(** *** yup: the schemas built inside the field tests *)

(** The [type] of a [ValidationError]: the check that produced it, which
    is the presence check of [required()] or a test known by its name. *)
Inductive ErrorType : Type :=
| RequiredCheck
| NamedTest (name : string).

Record ValidationError : Type := mkError {
  errType : ErrorType;
  errMessage : string
}.

(** A test queued by [schema.test(...)]. *)
Record TestConfig (T : Type) : Type := mkTest {
  testName : string;
  testExclusive : bool;
  testMessage : string;
  testFn : T -> bool
}.

(** A typed schema ([yup.string()], [yup.number()], [yup.date()]) fed
    with inputs of type [I]: the cast with the type check, the message
    of [typeError] (the code always installs its own, so yup's default
    text is left empty), the check installed by [oneOf], and the queue
    of tests. *)
Record Schema (I T : Type) : Type := mkSchema {
  castValue : I -> option T;
  typeErrorMessage : string;
  whitelistError : option (TestConfig T);
  tests : list (TestConfig T)
}.

Arguments mkTest {T}.
Arguments testName {T}.
Arguments testExclusive {T}.
Arguments testMessage {T}.
Arguments testFn {T}.
Arguments mkSchema {I T}.
Arguments castValue {I T}.
Arguments typeErrorMessage {I T}.
Arguments whitelistError {I T}.
Arguments tests {I T}.

Definition yup_typeError {I T} (message : string) (s : Schema I T) : Schema I T :=
  mkSchema (castValue s) message (whitelistError s) (tests s).

(** [schema.test(opts)]: an exclusive test replaces the queued tests of
    the same name; the new test goes to the end of the queue. *)
Definition yup_test {I T} (t : TestConfig T) (s : Schema I T) : Schema I T :=
  let kept :=
    List.filter (fun q => negb (testExclusive t && String.eqb (testName q) (testName t)))
                (tests s) in
  mkSchema (castValue s) (typeErrorMessage s) (whitelistError s) (kept ++ [t]).

(** [schema.oneOf(enums, message)] does not queue a test: it installs
    the whitelist check, which yup runs with the type check, before the
    queue. *)
Definition yup_oneOf {I T} (member : T -> bool) (message : string)
           (s : Schema I T) : Schema I T :=
  mkSchema (castValue s) (typeErrorMessage s)
           (Some (mkTest "oneOf" false message member)) (tests s).

(** The first failing test of a queue ([abortEarly] is on). *)
Fixpoint runTests {T} (ts : list (TestConfig T)) (v : T) : option ValidationError :=
  match ts with
  | [] => None
  | t :: rest =>
      if testFn t v then runTests rest v
      else Some (mkError (NamedTest (testName t)) (testMessage t))
  end.

(** [schema.validateSync(input)]: cast, then the type check and the
    whitelist check, then the queue; [inl] is the error thrown. *)
Definition validateSync {I T} (s : Schema I T) (input : I) : ValidationError + T :=
  match castValue s input with
  | None => inl (mkError (NamedTest "typeError") (typeErrorMessage s))
  | Some v =>
      match runTests (match whitelistError s with Some w => [w] | None => [] end) v with
      | Some e => inl e
      | None =>
          match runTests (tests s) v with
          | Some e => inl e
          | None => inr v
          end
      end
  end.

Section Model.

Context `{H : Host}.

Definition parseISO (s : string) : Date :=
  match parseCalendarDate s with
  | Some d => d
  | None => parseISO_other s
  end.

(** *** holidays.ts *)

Definition US_HOLIDAYS_2025_STRINGS : list string :=
  [ "2025-01-01"; "2025-01-20"; "2025-02-17"; "2025-05-26"; "2025-06-19";
    "2025-07-04"; "2025-09-01"; "2025-10-13"; "2025-11-11"; "2025-11-27";
    "2025-12-25" ].

Definition US_HOLIDAYS_2025 : list Date :=
  map (fun dateStr => parseISO dateStr) US_HOLIDAYS_2025_STRINGS.

Definition isPublicHoliday (date : Date) : bool :=
  match date with
  | InvalidDate => false
  | Time t =>
      let dateToCheck := parseISO (format_yyyy_MM_dd t) in
      if negb (isValid dateToCheck) then false
      else existsb (fun holiday => isValid holiday && isEqual dateToCheck holiday)
                   US_HOLIDAYS_2025
  end.

Definition isWeekend (date : Date) : bool :=
  match date with
  | InvalidDate => false
  | Time t => let day := getDay t in (day =? 0) || (day =? 6)
  end.

(** *** The JSON configuration *)

(** An element of [allowedValues]. *)
Inductive scalar : Type :=
| SStr (s : string)
| SNum (n : num).

(** [JsonRule]: every attribute is optional on the wire; [ref] is the
    attribute [$ref]. *)
Record JsonRule : Type := mkRule {
  type : option string;
  required : option bool;
  minLength : option Z;
  maxLength : option Z;
  pattern : option string;
  allowedValues : option (list scalar);
  minValue : option num;
  maxValue : option num;
  customRule : option string;
  minDate : option string;
  errorMessageRequired : option string;
  errorMessageMinLength : option string;
  errorMessageMaxLength : option string;
  errorMessagePattern : option string;
  errorMessageAllowedValues : option string;
  errorMessageType : option string;
  errorMessageMinValue : option string;
  errorMessageMaxValue : option string;
  errorMessageMinDate : option string;
  errorMessageCustomRule : option string;
  ref : option string
}.

(** The rule with no attribute. *)
Definition emptyRule : JsonRule :=
  mkRule None None None None None None None None None None None None None
         None None None None None None None None.

(** [a || b] on an optional string: the empty string is falsy. *)
Definition orElse (a : option string) (b : string) : string :=
  match a with
  | Some s => if JsString.isEmpty s then b else s
  | None => b
  end.

(** An optional string that is truthy. *)
Definition truthy (a : option string) : option string :=
  match a with
  | Some s => if JsString.isEmpty s then None else Some s
  | None => None
  end.

Definition isTrue (a : option bool) : bool :=
  match a with Some true => true | _ => false end.

(** [a === b] for an optional string attribute and a literal. *)
Definition isString (a : option string) (b : string) : bool :=
  match a with Some s => String.eqb s b | None => false end.

(** [String(x)] on an element of [allowedValues]. *)
Definition scalarToString (x : scalar) : string :=
  match x with SStr s => s | SNum n => numToString n end.

(** *** yup: the typed schemas *)

(** [yup.string()]: numbers and booleans are coerced with [toString];
    arrays and plain objects are left as they are and fail the type
    check. *)
Definition yup_string : Schema value string :=
  mkSchema
    (fun v => match v with
              | VString s => Some s
              | VNumber n => Some (numToString n)
              | VBool true => Some "true"
              | VBool false => Some "false"
              | _ => None
              end)
    "" None [].

Definition string_min (min : Z) (message : string) (s : Schema value string) :=
  yup_test (mkTest "min" true message (fun v => min <=? JsString.len v)) s.

Definition string_max (max : Z) (message : string) (s : Schema value string) :=
  yup_test (mkTest "max" true message (fun v => JsString.len v <=? max)) s.

Definition string_matches (regex : string -> bool) (message : string)
           (s : Schema value string) :=
  yup_test (mkTest "matches" false message regex) s.

(** [resolved.includes(value)] on a string: only an equal string element
    matches. *)
Definition includesString (enums : list scalar) (v : string) : bool :=
  existsb (fun x => match x with SStr s => String.eqb s v | SNum _ => false end) enums.

(** [yup.number()]. *)
Definition yup_number : Schema value num :=
  mkSchema
    (fun v => let n := yupNumberCast v in if num_isNaN n then None else Some n)
    "" None [].

Definition number_min (min : num) (message : string) (s : Schema value num) :=
  yup_test (mkTest "min" true message (fun v => num_leb min v)) s.

Definition number_max (max : num) (message : string) (s : Schema value num) :=
  yup_test (mkTest "max" true message (fun v => num_leb v max)) s.

(** [yup.date()] fed with [Date] objects. *)
Definition yup_date : Schema Date Z :=
  mkSchema (fun d => match d with Time t => Some t | InvalidDate => None end)
           "" None [].

(** [schema.min(limit, message)] on dates, for a valid [limit]:
    [value >= limit]. *)
Definition date_min (limit : Z) (message : string) (s : Schema Date Z) :=
  yup_test (mkTest "min" true message (fun v => limit <=? v)) s.

(** *** yup: the field schema, [yup.mixed()] with one transform *)

(** What a field test returns: [true], or [ctx.createError]. *)
Inductive TestResult : Type :=
| Pass
| CreateError (message : string).

(** A field test reads the clock and may write to the console. *)
Definition FieldTest : Type := Z -> value -> TestResult * list Diagnostic.

(** The code ends every chain with [.required(message)] or with
    [.nullable()]. *)
Inductive Presence : Type :=
| Required (message : string)
| Nullable.

Record MixedSchema : Type := mkMixed {
  transform : value -> value;
  presence : Presence;
  mixedTests : list (string * FieldTest)
}.

(** The outcome of validating one candidate value. *)
Inductive Outcome : Type :=
| Valid
| Invalid (e : ValidationError).

Fixpoint runFieldTests (ts : list (string * FieldTest)) (now : Z) (v : value)
  : Outcome * list Diagnostic :=
  match ts with
  | [] => (Valid, [])
  | (name, f) :: rest =>
      match f now v with
      | (Pass, log) =>
          let '(o, log') := runFieldTests rest now v in (o, (log ++ log')%list)
      | (CreateError m, log) => (Invalid (mkError (NamedTest name) m), log)
      end
  end.

(** Validation of a candidate value by a field schema.  yup does not run
    the transforms on [undefined]. *)
Definition validate (s : MixedSchema) (now : Z) (raw : value)
  : Outcome * list Diagnostic :=
  let v := match raw with VUndefined => VUndefined | _ => transform s raw end in
  match presence s, v with
  | Required m, VUndefined => (Invalid (mkError RequiredCheck m), [])
  | Required m, VNull => (Invalid (mkError RequiredCheck m), [])
  | _, _ => runFieldTests (mixedTests s) now v
  end.

(** *** buildYupSchema.ts *)

Definition dquote : string := String (ascii_of_N 34) EmptyString.

(** [{...a, ...b}] on one attribute. *)
Definition over {A} (a b : option A) : option A :=
  match b with Some _ => b | None => a end.

(** [{...a, ...b}]. *)
Definition spread (a b : JsonRule) : JsonRule :=
  mkRule (over (type a) (type b)) (over (required a) (required b))
         (over (minLength a) (minLength b)) (over (maxLength a) (maxLength b))
         (over (pattern a) (pattern b)) (over (allowedValues a) (allowedValues b))
         (over (minValue a) (minValue b)) (over (maxValue a) (maxValue b))
         (over (customRule a) (customRule b)) (over (minDate a) (minDate b))
         (over (errorMessageRequired a) (errorMessageRequired b))
         (over (errorMessageMinLength a) (errorMessageMinLength b))
         (over (errorMessageMaxLength a) (errorMessageMaxLength b))
         (over (errorMessagePattern a) (errorMessagePattern b))
         (over (errorMessageAllowedValues a) (errorMessageAllowedValues b))
         (over (errorMessageType a) (errorMessageType b))
         (over (errorMessageMinValue a) (errorMessageMinValue b))
         (over (errorMessageMaxValue a) (errorMessageMaxValue b))
         (over (errorMessageMinDate a) (errorMessageMinDate b))
         (over (errorMessageCustomRule a) (errorMessageCustomRule b))
         (over (ref a) (ref b)).

(** [delete rules.$ref]. *)
Definition deleteRef (r : JsonRule) : JsonRule :=
  mkRule (type r) (required r) (minLength r) (maxLength r) (pattern r)
         (allowedValues r) (minValue r) (maxValue r) (customRule r) (minDate r)
         (errorMessageRequired r) (errorMessageMinLength r) (errorMessageMaxLength r)
         (errorMessagePattern r) (errorMessageAllowedValues r) (errorMessageType r)
         (errorMessageMinValue r) (errorMessageMaxValue r) (errorMessageMinDate r)
         (errorMessageCustomRule r) None.

(** The property names a plain object inherits from [Object.prototype]. *)
Definition objectPrototypeKeys : list string :=
  [ "constructor"; "hasOwnProperty"; "isPrototypeOf"; "propertyIsEnumerable";
    "toLocaleString"; "toString"; "valueOf"; "__proto__";
    "__defineGetter__"; "__defineSetter__"; "__lookupGetter__"; "__lookupSetter__" ].

(** [definitions[key]] on the plain object [definitions]: an own
    property, else a member of [Object.prototype] (a function or an
    object: truthy, and with no enumerable property of its own), else
    [undefined]. *)
Inductive Property : Type :=
| OwnProperty (d : JsonRule)
| Inherited
| Undefined.

Definition getProperty (definitions : gmap string JsonRule) (key : string) : Property :=
  match definitions !! key with
  | Some d => OwnProperty d
  | None => if existsb (String.eqb key) objectPrototypeKeys then Inherited else Undefined
  end.

(** Lines 49 to 60: the rule the field is compiled from, or the warning
    with which the field is skipped. *)
Definition resolveRule (definitions : gmap string JsonRule) (fieldRule : JsonRule)
  : JsonRule + Diagnostic :=
  let rules := fieldRule in
  match truthy (ref rules) with
  | Some r =>
      let refPath := JsString.replace "#/definitions/" "" r in
      match getProperty definitions refPath with
      | OwnProperty d => inl (deleteRef (spread d rules))
      | Inherited => inl (deleteRef (spread emptyRule rules))
      | Undefined =>
          inr (ConsoleWarn ("Validation definition not found for $ref: " ++ r))
      end
  | None => inl rules
  end.

Definition requiredMessage (fieldName : string) (rules : JsonRule) : string :=
  orElse (errorMessageRequired rules)
         (JsString.toLowerCase (JsString.spaceBeforeCapitals fieldName) ++ " is required").

(** The transform of the string branch. *)
Definition stringTransform (absent : value) (v : value) : value :=
  match v with
  | VString s => if JsString.isEmpty (JsString.trim s) then absent else v
  | VNull | VUndefined => absent
  | _ => v
  end.

(** The transform of the number, date and default branches. *)
Definition plainTransform (absent : value) (v : value) : value :=
  match v with
  | VString s => if JsString.isEmpty s then absent else v
  | VNull | VUndefined => absent
  | _ => v
  end.

(** [base.transform(...).required(requiredMessage)] or
    [base.transform(...).nullable()], with the field test when there is
    one. *)
Definition baseValidator (tr : value -> value -> value) (fieldName : string)
           (rules : JsonRule) (ts : list (string * FieldTest)) : MixedSchema :=
  if isTrue (required rules)
  then mkMixed (tr VUndefined) (Required (requiredMessage fieldName rules)) ts
  else mkMixed (tr VNull) Nullable ts.

(** [try { schema.validateSync(v); return true }
     catch (err) { return ctx.createError({ message: err.message }) }]. *)
Definition catchError {T} (r : ValidationError + T) : TestResult :=
  match r with
  | inr _ => Pass
  | inl err => CreateError (errMessage err)
  end.

(** Lines 81 to 111. *)
Definition stringTest (fieldName : string) (rules : JsonRule) : FieldTest :=
  fun _ v =>
    match v with
    | VNull | VUndefined => (Pass, [])
    | _ =>
        let s0 := yup_typeError
                    (orElse (errorMessageType rules) "Invalid value, must be a string.")
                    yup_string in
        let trimmedValue :=
          match v with VString s => VString (JsString.trim s) | _ => v end in
        let s1 :=
          match minLength rules with
          | Some n =>
              string_min n
                (JsString.replace "{minLength}" (JsString.ofZ n)
                   (orElse (errorMessageMinLength rules) "Minimum length is {minLength}")) s0
          | None => s0
          end in
        let s2 :=
          match maxLength rules with
          | Some n =>
              string_max n
                (JsString.replace "{maxLength}" (JsString.ofZ n)
                   (orElse (errorMessageMaxLength rules) "Maximum length is {maxLength}")) s1
          | None => s1
          end in
        let '(s3, log) :=
          match truthy (pattern rules) with
          | Some p =>
              match newRegExp p with
              | Some regex =>
                  (string_matches regex
                     (orElse (errorMessagePattern rules) "Invalid format") s2, [])
              | None =>
                  (s2, [ConsoleError ("Invalid regex pattern for field " ++ fieldName
                                      ++ ": " ++ p)])
              end
          | None => (s2, [])
          end in
        let s4 :=
          match allowedValues rules with
          | Some enums =>
              yup_oneOf (includesString enums)
                (JsString.replace "{allowedValues}"
                   (JsString.join ", " (map scalarToString enums))
                   (orElse (errorMessageAllowedValues rules)
                           "Must be one of: {allowedValues}")) s3
          | None => s3
          end in
        (catchError (validateSync s4 trimmedValue), log)
    end.

(** Lines 128 to 145. *)
Definition numberTest (rules : JsonRule) : FieldTest :=
  fun _ v =>
    match v with
    | VNull | VUndefined => (Pass, [])
    | _ =>
        let s0 := yup_typeError
                    (orElse (errorMessageType rules) "Must be a valid number")
                    yup_number in
        let s1 :=
          match minValue rules with
          | Some n =>
              number_min n
                (JsString.replace "{minValue}" (numToString n)
                   (orElse (errorMessageMinValue rules) "Minimum value is {minValue}")) s0
          | None => s0
          end in
        let s2 :=
          match maxValue rules with
          | Some n =>
              number_max n
                (JsString.replace "{maxValue}" (numToString n)
                   (orElse (errorMessageMaxValue rules) "Maximum value is {maxValue}")) s1
          | None => s1
          end in
        (catchError (validateSync s2 v), [])
    end.

(** Lines 164 to 206.  The schema [tempDateValidator] of lines 178 to
    182 is built and never validated against; it is left out. *)
Definition dateTest (rules : JsonRule) : FieldTest :=
  fun now v =>
    match v with
    | VNull | VUndefined => (Pass, [])
    | VString s =>
        let parsedDate := parseISO s in
        if negb (isValid parsedDate) then
          (CreateError (orElse (errorMessageType rules) "Please enter a valid date."), [])
        else if isString (customRule rules) "noWeekendOrHoliday"
                && (isWeekend parsedDate || isPublicHoliday parsedDate) then
          (CreateError (orElse (errorMessageCustomRule rules)
                               "Date cannot be a weekend or public holiday."), [])
        else
          let s0 := yup_typeError
                      (orElse (errorMessageType rules) "Please enter a valid date.")
                      yup_date in
          let finalDateCheckSchema :=
            if isString (minDate rules) "today" then
              date_min (startOfDay now)
                       (orElse (errorMessageMinDate rules) "Date cannot be in the past.") s0
            else s0 in
          (catchError (validateSync finalDateCheckSchema parsedDate), [])
    | _ =>
        (CreateError (orElse (errorMessageType rules) "Date must be a valid string input."),
         [])
    end.

(** [`${rules.type}`]. *)
Definition typeText (rules : JsonRule) : string :=
  match type rules with Some t => t | None => "undefined" end.

Definition unsupportedTypeWarning (fieldName : string) (rules : JsonRule) : Diagnostic :=
  ConsoleWarn ("Unsupported validation type " ++ dquote ++ typeText rules ++ dquote
               ++ " for field " ++ dquote ++ fieldName ++ dquote ++ ". Using mixed().").

(** Lines 62 to 223: the schema of one field and what the compilation of
    the field writes to the console. *)
Definition compileField (fieldName : string) (rules : JsonRule)
  : MixedSchema * list Diagnostic :=
  if isString (type rules) "string" then
    (baseValidator stringTransform fieldName rules
       [("is-string-and-valid-" ++ fieldName, stringTest fieldName rules)], [])
  else if isString (type rules) "number" then
    (baseValidator plainTransform fieldName rules
       [("is-number-and-valid-" ++ fieldName, numberTest rules)], [])
  else if isString (type rules) "date" then
    (baseValidator plainTransform fieldName rules
       [("is-date-and-valid-" ++ fieldName, dateTest rules)], [])
  else
    (baseValidator plainTransform fieldName rules [],
     [unsupportedTypeWarning fieldName rules]).

(** One turn of the loop over the fields.  The assignment of line 226 is
    the insertion of a key for every field name but [__proto__], for
    which it runs the setter of [Object.prototype] and adds no field:
    what is proved of the keys of the shape leaves that name out. *)
Definition buildField (definitions : gmap string JsonRule)
           (acc : gmap string MixedSchema * list Diagnostic)
           (field : string * JsonRule) : gmap string MixedSchema * list Diagnostic :=
  let '(schemaObjectShape, console) := acc in
  let '(fieldName, fieldRule) := field in
  match resolveRule definitions fieldRule with
  | inr warning => (schemaObjectShape, (console ++ [warning])%list)
  | inl rules =>
      let '(fieldValidator, log) := compileField fieldName rules in
      (<[fieldName := fieldValidator]> schemaObjectShape, (console ++ log)%list)
  end.

(** [buildYupSchema]: the shape of the object schema, field by field in
    the order of the [for ... in] loop, and the console. *)
Definition buildYupSchema (configSection : list (string * JsonRule))
           (definitions : gmap string JsonRule)
  : gmap string MixedSchema * list Diagnostic :=
  fold_left (buildField definitions) configSection (∅, []).

(** The compiled validator of a field, applied to a candidate value. *)
Definition validator (fieldName : string) (rules : JsonRule) (now : Z) (v : value)
  : Outcome * list Diagnostic :=
  validate (fst (compileField fieldName rules)) now v.

(** ** The validation contract in the specification's terms *)

(** The constraint a [ValidationFailure] names. *)
Inductive Kind : Type :=
| KRequired | KType | KMinLength | KMaxLength | KPattern | KAllowedValues
| KMinValue | KMaxValue | KMinDate | KCustomRule.


Definition allKinds : list Kind :=
  [ KRequired; KType; KMinLength; KMaxLength; KPattern; KAllowedValues;
    KMinValue; KMaxValue; KMinDate; KCustomRule ].


(** One constraint check on one value: which constraint, whether the
    value satisfies it, the message if it does not. *)
Record Check : Type := mkCheck {
  checkKind : Kind;
  checkHolds : bool;
  checkMessage : string
}.

(** First failure wins. *)
Fixpoint firstFailure (cs : list Check) : option Check :=
  match cs with
  | [] => None
  | c :: rest => if checkHolds c then firstFailure rest else Some c
  end.

(** The outcome of a chain of checks run for the test [name]. *)
Definition chainOutcome (name : string) (cs : list Check) : Outcome :=
  match firstFailure cs with
  | None => Valid
  | Some c => Invalid (mkError (NamedTest name) (checkMessage c))
  end.

(** A template with the first occurrence of a placeholder replaced. *)
Definition render (placeholder text : string) (template : option string)
           (generic : string) : string :=
  JsString.replace placeholder text (orElse template generic).

Definition minLengthCheck (rules : JsonRule) (s : string) : list Check :=
  match minLength rules with
  | Some n =>
      [mkCheck KMinLength (n <=? JsString.len s)
         (render "{minLength}" (JsString.ofZ n) (errorMessageMinLength rules)
                 "Minimum length is {minLength}")]
  | None => []
  end.

Definition maxLengthCheck (rules : JsonRule) (s : string) : list Check :=
  match maxLength rules with
  | Some n =>
      [mkCheck KMaxLength (JsString.len s <=? n)
         (render "{maxLength}" (JsString.ofZ n) (errorMessageMaxLength rules)
                 "Maximum length is {maxLength}")]
  | None => []
  end.

(** A pattern that is empty or does not compile is no check. *)
Definition patternCheck (rules : JsonRule) (s : string) : list Check :=
  match truthy (pattern rules) with
  | Some p =>
      match newRegExp p with
      | Some regex =>
          [mkCheck KPattern (regex s) (orElse (errorMessagePattern rules) "Invalid format")]
      | None => []
      end
  | None => []
  end.

Definition allowedValuesCheck (rules : JsonRule) (s : string) : list Check :=
  match allowedValues rules with
  | Some enums =>
      [mkCheck KAllowedValues (existsb (fun x => match x with
                                                 | SStr a => String.eqb a s
                                                 | SNum _ => false
                                                 end) enums)
         (render "{allowedValues}" (JsString.join ", " (map scalarToString enums))
                 (errorMessageAllowedValues rules) "Must be one of: {allowedValues}")]
  | None => []
  end.

(** The order of the specification: length, pattern, allowed values. *)
Definition specStringChain (rules : JsonRule) (s : string) : list Check :=
  (minLengthCheck rules s ++ maxLengthCheck rules s ++ patternCheck rules s
   ++ allowedValuesCheck rules s)%list.

(** The order the compiled validator follows: allowed values, length,
    pattern. *)
Definition stringChain (rules : JsonRule) (s : string) : list Check :=
  (allowedValuesCheck rules s ++ minLengthCheck rules s ++ maxLengthCheck rules s
   ++ patternCheck rules s)%list.

(** The string a present value is checked as: a string is trimmed, a
    number or a boolean is printed; an array or a plain object is not a
    string. *)
Definition checkedString (v : value) : option string :=
  match v with
  | VString s => Some (JsString.trim s)
  | VNumber n => Some (numToString n)
  | VBool true => Some "true"
  | VBool false => Some "false"
  | _ => None
  end.

(** "No value" for a string field. *)
Definition stringAbsent (v : value) : bool :=
  match v with
  | VUndefined | VNull => true
  | VString s => JsString.isEmpty (JsString.trim s)
  | _ => false
  end.

(** "No value" for a number field, a date field and a field of an
    unsupported kind. *)
Definition plainAbsent (v : value) : bool :=
  match v with
  | VUndefined | VNull => true
  | VString s => JsString.isEmpty s
  | _ => false
  end.


Definition minDateCheck (rules : JsonRule) (now t : Z) : list Check :=
  if isString (minDate rules) "today" then
    [mkCheck KMinDate (startOfDay now <=? t)
       (orElse (errorMessageMinDate rules) "Date cannot be in the past.")]
  else [].

Definition customRuleCheck (rules : JsonRule) (t : Z) : list Check :=
  if isString (customRule rules) "noWeekendOrHoliday" then
    [mkCheck KCustomRule (negb (isWeekend (Time t) || isPublicHoliday (Time t)))
       (orElse (errorMessageCustomRule rules) "Date cannot be a weekend or public holiday.")]
  else [].

(** The order of the specification: minimum date, then custom rule. *)
Definition specDateChain (rules : JsonRule) (now t : Z) : list Check :=
  (minDateCheck rules now t ++ customRuleCheck rules t)%list.

(** The messages a failure of kind [k] can carry for a field: those of
    the constraints that the rule has and that the kind of the field
    checks. *)
Definition messagesOf (k : Kind) (fieldName : string) (rules : JsonRule) : list string :=
  let kind t := isString (type rules) t in
  match k with
  | KRequired => if isTrue (required rules) then [requiredMessage fieldName rules] else []
  | KType =>
      if kind "string" then
        [orElse (errorMessageType rules) "Invalid value, must be a string."]
      else if kind "number" then
        [orElse (errorMessageType rules) "Must be a valid number"]
      else if kind "date" then
        [ orElse (errorMessageType rules) "Please enter a valid date.";
          orElse (errorMessageType rules) "Date must be a valid string input." ]
      else []
  | KMinLength =>
      match minLength rules with
      | Some n =>
          if kind "string" then
            [render "{minLength}" (JsString.ofZ n) (errorMessageMinLength rules)
                    "Minimum length is {minLength}"]
          else []
      | None => []
      end
  | KMaxLength =>
      match maxLength rules with
      | Some n =>
          if kind "string" then
            [render "{maxLength}" (JsString.ofZ n) (errorMessageMaxLength rules)
                    "Maximum length is {maxLength}"]
          else []
      | None => []
      end
  | KPattern =>
      match truthy (pattern rules) with
      | Some p =>
          match newRegExp p with
          | Some _ =>
              if kind "string" then [orElse (errorMessagePattern rules) "Invalid format"]
              else []
          | None => []
          end
      | None => []
      end
  | KAllowedValues =>
      match allowedValues rules with
      | Some enums =>
          if kind "string" then
            [render "{allowedValues}" (JsString.join ", " (map scalarToString enums))
                    (errorMessageAllowedValues rules) "Must be one of: {allowedValues}"]
          else []
      | None => []
      end
  | KMinValue =>
      match minValue rules with
      | Some n =>
          if kind "number" then
            [render "{minValue}" (numToString n) (errorMessageMinValue rules)
                    "Minimum value is {minValue}"]
          else []
      | None => []
      end
  | KMaxValue =>
      match maxValue rules with
      | Some n =>
          if kind "number" then
            [render "{maxValue}" (numToString n) (errorMessageMaxValue rules)
                    "Maximum value is {maxValue}"]
          else []
      | None => []
      end
  | KMinDate =>
      if kind "date" && isString (minDate rules) "today" then
        [orElse (errorMessageMinDate rules) "Date cannot be in the past."]
      else []
  | KCustomRule =>
      if kind "date" && isString (customRule rules) "noWeekendOrHoliday" then
        [orElse (errorMessageCustomRule rules) "Date cannot be a weekend or public holiday."]
      else []
  end.

(** yup rewrites, in every message it reports, the tokens made of a
    dollar sign and a name in braces.  A message without a dollar sign
    followed by a brace has no token and is reported as it is written. *)
Definition plain (message : string) : bool :=
  negb (JsString.includes "${" message).

(** [Number.isSafeInteger]: the integers that a JavaScript number holds
    exactly, and that [String] prints with all their digits. *)
Definition isSafeInteger (n : Z) : bool := Z.abs n <=? 9007199254740991.

Definition safeLimit (limit : option Z) : bool :=
  match limit with Some n => isSafeInteger n | None => true end.

(** The messages of the field are reported as they are rendered: the
    limits that are printed into them are safe integers, and the required
    message and the messages of the constraints are plain. *)
Definition reportedAsRendered (fieldName : string) (rules : JsonRule) : bool :=
  safeLimit (minLength rules) && safeLimit (maxLength rules)
  && plain (requiredMessage fieldName rules)
  && forallb plain (flat_map (fun k => messagesOf k fieldName rules) allKinds).

(** The field name as the default required message says it: a capital
    letter from A to Z gives a space and its small letter, every other
    character is put in lower case. *)
Fixpoint spokenName (fieldName : string) : string :=
  match fieldName with
  | EmptyString => EmptyString
  | String c rest =>
      if JsString.isUpperAZ c
      then String " " (String (ascii_of_N (JsString.code c + 32)) (spokenName rest))
      else String (JsString.lowerChar c) (spokenName rest)
  end.

(** The name of the test of a field of a supported kind. *)
Definition fieldTestName (kind fieldName : string) : string :=
  "is-" ++ kind ++ "-and-valid-" ++ fieldName.

(** A template with every occurrence of a placeholder replaced. *)
Fixpoint replaceAll (fuel : nat) (placeholder text s : string) : string :=
  match fuel with
  | O => s
  | S fuel' =>
      match JsString.splitAtFirst placeholder s with
      | Some (before, after) =>
          before ++ text ++ replaceAll fuel' placeholder text after
      | None => s
      end
  end.


(** The holidays of [US_HOLIDAYS_2025_STRINGS] as months and days. *)
Definition holidayMonthDays : list (Z * Z) :=
  [ (1, 1); (1, 20); (2, 17); (5, 26); (6, 19); (7, 4); (9, 1); (10, 13);
    (11, 11); (11, 27); (12, 25) ].

(** The civil date is one of the eleven holidays of 2025. *)
Definition isHolidayOf2025 (y m d : Z) : bool :=
  (y =? 2025) && existsb (fun md => (m =? fst md) && (d =? snd md)) holidayMonthDays.

(** [n] is printed on four digits that read back as [n]. *)
Definition pads4 (n : Z) : bool :=
  match list_ascii_of_string (addLeadingZeros n 4) with
  | [a; b; c; d] =>
      match digitsVal 0 [a; b; c; d] with Some v => v =? n | None => false end
  | _ => false
  end.

(** [n] is printed on two digits that read back as [n]. *)
Definition pads2 (n : Z) : bool :=
  match list_ascii_of_string (addLeadingZeros n 2) with
  | [a; b] => match digitsVal 0 [a; b] with Some v => v =? n | None => false end
  | _ => false
  end.

End Model.

(** ** A closed host, for the examples *)

(** Numbers: the integers and [NaN]. *)
#[export] Instance integerNumbers : Numbers := {|
  num := option Z;
  numToString := fun n => match n with Some z => JsString.ofZ z | None => "NaN" end;
  num_isNaN := fun n => match n with Some _ => false | None => true end;
  num_leb := fun a b => match a, b with Some x, Some y => x <=? y | _, _ => false end
|}.

Definition regexMetacharacters : list ascii :=
  list_ascii_of_string "\^$.|?*+()[]{}".

Definition isLiteralPattern (p : string) : bool :=
  forallb (fun c => negb (existsb (Ascii.eqb c) regexMetacharacters))
          (list_ascii_of_string p).

(** Regular expressions: a pattern without metacharacter matches where it
    occurs; the pattern made of one opening parenthesis is a syntax
    error, as it is in JavaScript.  The other patterns are given no
    meaning here and are not used below. *)
Definition literalRegExp (p : string) : option (string -> bool) :=
  if isLiteralPattern p then Some (JsString.includes p) else None.

Definition digitsOnlyCast (v : value) : num :=
  match v with
  | VNumber n => n
  | VString s => if JsString.isEmpty s then None else digitsVal 0 (list_ascii_of_string s)
  | _ => None
  end.

#[export] Instance simpleHost : Host := {|
  yupNumberCast := digitsOnlyCast;
  newRegExp := literalRegExp;
  parseISO_other := fun _ => InvalidDate
|}.

(** The definitions [nonEmptyString] and [validDate] of
    [validationDefinitions.json], and the rule of the field
    [beneficiaryName] of [wireTransferValidationConfig.json]. *)
Definition nonEmptyString : JsonRule :=
  mkRule (Some "string") (Some true) (Some 1) None None None None None None None
         (Some "This field cannot be empty.")
         (Some "This field requires at least {minLength} character(s).")
         None None None None None None None None None.

Definition validDate : JsonRule :=
  mkRule (Some "date") (Some true) None None None None None None
         (Some "noWeekendOrHoliday") (Some "today")
         (Some "Transfer date is required.") None None None None
         (Some "Please enter a valid date.") None None
         (Some "Transfer date cannot be in the past.")
         (Some "Transfer date cannot be a weekend or public holiday.") None.

Definition beneficiaryName : JsonRule :=
  mkRule None None None (Some 100) None None None None None None
         None None (Some "Beneficiary name cannot exceed {maxLength} characters.")
         None None None None None None None
         (Some "#/definitions/nonEmptyString").

Definition definitionsJson : gmap string JsonRule :=
  <["nonEmptyString" := nonEmptyString]> (<["validDate" := validDate]> ∅).


(** The rule of the field [memo], with a shorter maximum length. *)
Definition shortMemo : JsonRule :=
  mkRule (Some "string") (Some false) None (Some 5) None None None None None None
         None None (Some "Memo cannot exceed {maxLength} characters.")
         None None None None None None None None.


(** Noon of Wednesday 11 June 2025, and the midnights of Saturday 7 June
    2025 and of that Wednesday. *)
Definition wed_2025_06_11_noon : Z := 1749643200000.
Definition sat_2025_06_07 : Z := 1749254400000.

Fixpoint repeatChar (c : ascii) (n : nat) : string :=
  match n with
  | O => EmptyString
  | S n' => String c (repeatChar c n')
  end.

(** A rule with the maximum length and the template of the
    specification's example. *)
Definition cannotExceed100 : JsonRule :=
  mkRule (Some "string") (Some true) None (Some 100) None None None None None None
         None None (Some "cannot exceed {maxLength} characters")
         None None None None None None None None.

(** A rule of the wire-format kind [boolean]. *)
Definition booleanRule : JsonRule :=
  mkRule (Some "boolean") (Some true) None None None None None None None None
         None None None None None None None None None None None.

(** A field rule whose reference names no definition. *)
Definition danglingRule : JsonRule :=
  mkRule None None None None None None None None None None
         None None None None None None None None None None
         (Some "#/definitions/doesNotExist").


(** ** The rest of the program *)

(** What a promise settles to: its value, or the message of the [Error]
    it is rejected with. *)
Inductive Settled (A : Type) : Type :=
| Resolved (a : A)
| Rejected (message : string).

Arguments Resolved {A}.
Arguments Rejected {A}.

(** The output of [console.log] and [console.error] in the loader. *)
Inductive LoaderEntry : Type :=
| LogLine (text : string)
| ErrorLine (text : string).


Section Application.

Context `{H : Host}.

(** What the form shows: one of the four returns of the component, the
    error view with the text of [configError] and the form with the
    options of the currency field. *)
Inductive View : Type :=
| LoadingView
| ErrorView (message : string)
| PreparingView
| FormView (currencyOptions : list scalar).

(** *** Number fields in the specification's terms *)

Definition minValueCheck (rules : JsonRule) (n : num) : list Check :=
  match minValue rules with
  | Some m =>
      [mkCheck KMinValue (num_leb m n)
         (render "{minValue}" (numToString m) (errorMessageMinValue rules)
                 "Minimum value is {minValue}")]
  | None => []
  end.

Definition maxValueCheck (rules : JsonRule) (n : num) : list Check :=
  match maxValue rules with
  | Some m =>
      [mkCheck KMaxValue (num_leb n m)
         (render "{maxValue}" (numToString m) (errorMessageMaxValue rules)
                 "Maximum value is {maxValue}")]
  | None => []
  end.

(** A value that is present and is not a string. *)
Definition presentNonString (v : value) : bool :=
  match v with
  | VUndefined | VNull | VString _ => false
  | _ => true
  end.

(** *** The document as a whole *)

(** [configSection[fieldName]] on a document whose keys are distinct. *)
Fixpoint configLookup (fieldName : string) (configSection : list (string * JsonRule))
  : option JsonRule :=
  match configSection with
  | [] => None
  | (name, rule) :: rest =>
      if String.eqb name fieldName then Some rule else configLookup fieldName rest
  end.

(** What the turn of the loop for one field writes to the console. *)
Definition fieldDiagnostics (definitions : gmap string JsonRule)
           (field : string * JsonRule) : list Diagnostic :=
  match resolveRule definitions (snd field) with
  | inr warning => [warning]
  | inl rules => snd (compileField (fst field) rules)
  end.

(** The kinds with a branch of their own in the [switch]. *)
Definition supportedType (rules : JsonRule) : bool :=
  isString (type rules) "string" || isString (type rules) "number"
  || isString (type rules) "date".

(** A field rule that is a reference and nothing else. *)
Definition referenceOnly (name : string) : JsonRule :=
  mkRule None None None None None None None None None None None None None
         None None None None None None None (Some ("#/definitions/" ++ name)).

(** *** validationConfigLoader.ts *)

(** The numbers [0.01] and [1000000] of [validationDefinitions.json]. *)
Variable n_0_01 : num.
Variable n_1000000 : num.

(** [validationDefinitions.json], under its key [definitions]. *)
Definition validationDefinitions : gmap string JsonRule :=
  <["nonEmptyString" :=
      mkRule (Some "string") (Some true) (Some 1) None None None None None None None
             (Some "This field cannot be empty.")
             (Some "This field requires at least {minLength} character(s).")
             None None None None None None None None None]>
  (<["accountNumber" :=
      mkRule (Some "string") (Some true) None None (Some "^[0-9]{8,17}$") None None None
             None None
             (Some "Account number is required.") None None
             (Some "Account number must be between 8 and 17 digits.")
             None None None None None None None]>
  (<["positiveAmount" :=
      mkRule (Some "number") (Some true) None None None None
             (Some n_0_01) (Some n_1000000) None None
             (Some "Amount is required.") None None None None
             (Some "Amount must be a valid number.")
             (Some "Amount must be greater than $0.00.")
             (Some "Amount cannot exceed ${maxValue}.")
             None None None]>
  (<["validDate" :=
      mkRule (Some "date") (Some true) None None None None None None
             (Some "noWeekendOrHoliday") (Some "today")
             (Some "Transfer date is required.") None None None None
             (Some "Please enter a valid date.") None None
             (Some "Transfer date cannot be in the past.")
             (Some "Transfer date cannot be a weekend or public holiday.") None]>
   ∅))).

(** [definitionsJson.definitions]: the import always has the key. *)
Definition importedDefinitions : option (gmap string JsonRule) :=
  Some validationDefinitions.

(** The object [mockWireConfig], in the order of its keys. *)
Definition mockWireConfig : list (string * JsonRule) :=
  [ ("beneficiaryName",
     mkRule None None None (Some 100) None None None None None None
            None None (Some "Beneficiary name cannot exceed {maxLength} characters.")
            None None None None None None None
            (Some "#/definitions/nonEmptyString"));
    ("beneficiaryAccountNumber", referenceOnly "accountNumber");
    ("routingNumber",
     mkRule (Some "string") (Some true) None None (Some "^[0-9]{9}$") None None None
            None None
            (Some "Routing number is required.") None None
            (Some "Routing number must be exactly 9 digits.")
            None None None None None None None);
    ("amount", referenceOnly "positiveAmount");
    ("currency",
     mkRule (Some "string") (Some true) None None None
            (Some [SStr "USD"; SStr "CAD"; SStr "EUR"; SStr "GBP"]) None None None None
            (Some "Currency is required.") None None None
            (Some "Invalid currency. Allowed: {allowedValues}.")
            None None None None None None);
    ("transferDate", referenceOnly "validDate");
    ("memo",
     mkRule (Some "string") (Some false) None (Some 140) None None None None None None
            None None (Some "Memo cannot exceed {maxLength} characters.")
            None None None None None None None None) ].

(** [fetchFormSpecificConfigFromDB]: what the promise settles to after
    the delay, and the console. *)
Definition fetchFormSpecificConfigFromDB (formKey : string)
  : Settled (list (string * JsonRule)) * list LoaderEntry :=
  (if String.eqb formKey "wireTransferRequest" then Resolved mockWireConfig
   else Rejected ("No mock validation config found for key: " ++ formKey),
   [LogLine ("Fetching validation config for: " ++ formKey)]).

Record ValidationSetup : Type := mkSetup {
  configSection : list (string * JsonRule);
  definitions : gmap string JsonRule
}.

(** [getWireTransferValidationSetup]: an error of the [try] block is
    written to the console and thrown again. *)
Definition getWireTransferValidationSetup : Settled ValidationSetup * list LoaderEntry :=
  let formKey := "wireTransferRequest" in
  let '(fetched, console) := fetchFormSpecificConfigFromDB formKey in
  let failed := [ErrorLine "Error fetching wire transfer validation setup:"] in
  match fetched with
  | Rejected message => (Rejected message, (console ++ failed)%list)
  | Resolved specificConfig =>
      match importedDefinitions with
      | None =>
          (Rejected "'definitions' not found in local validationDefinitions.json",
           (console ++ failed)%list)
      | Some d => (Resolved (mkSetup specificConfig d), console)
      end
  end.

(** *** WireTransferForm.tsx *)

(** The names of the [InputField]s of the form. *)
Definition wireTransferFields : list string :=
  [ "beneficiaryName"; "beneficiaryAccountNumber"; "routingNumber"; "amount";
    "currency"; "transferDate"; "memo" ].

(** The four pieces of state of the component that the loading of the
    configuration sets. *)
Record FormState : Type := mkFormState {
  validationSchema : option (gmap string MixedSchema);
  formConfigSection : option (list (string * JsonRule));
  isLoadingConfig : bool;
  configError : option string
}.

Definition initialFormState : FormState := mkFormState None None true None.

(** The state after [loadValidation] has run to its end, for what
    [getWireTransferValidationSetup] settled to: the [try] block sets the
    schema and the configuration, the [catch] block the error text, and
    the [finally] block ends the loading.  The console is left out. *)
Definition loadValidation (setup : Settled ValidationSetup) (st : FormState) : FormState :=
  match setup with
  | Resolved s =>
      mkFormState (Some (fst (buildYupSchema (configSection s) (definitions s))))
                  (Some (configSection s)) false None
  | Rejected message =>
      mkFormState (validationSchema st) (formConfigSection st) false
                  (Some (orElse (Some message) "Could not load form configuration."))
  end.

(** The memo [currencyAllowedValues]: the array [allowedValues] of the
    field [currency] as it is, and the empty array without one. *)
Definition currencyAllowedValues (formConfig : option (list (string * JsonRule)))
  : list scalar :=
  match formConfig with
  | Some config =>
      match configLookup "currency" config with
      | Some rule =>
          match allowedValues rule with
          | Some enums => enums
          | None => []
          end
      | None => []
      end
  | None => []
  end.

(** Which of the four returns of the component is taken. *)
Definition renderForm (st : FormState) : View :=
  if isLoadingConfig st then LoadingView
  else match truthy (configError st) with
       | Some message => ErrorView message
       | None =>
           match validationSchema st with
           | None => PreparingView
           | Some _ => FormView (currencyAllowedValues (formConfigSection st))
           end
       end.

End Application.

(** The definition [positiveAmount] with a whole minimum, and a document
    of two fields. *)
Definition wholeAmount : JsonRule :=
  mkRule (Some "number") (Some true) None None None None
         (Some (Some 1)) (Some (Some 1000000)) None None
         (Some "Amount is required.") None None None None
         (Some "Amount must be a valid number.")
         (Some "Amount must be greater than $0.00.")
         (Some "Amount cannot exceed ${maxValue}.")
         None None None.

Definition memoAndDate : list (string * JsonRule) :=
  [ ("memo", shortMemo); ("transferDate", referenceOnly "validDate") ].

(** One hour into Thanksgiving 2025. *)
Definition thanksgiving_1am : Z := makeDay 2025 11 27 * msPerDay + 3600000.

(** ** Facts *)

Section Facts.

Context `{H : Host}.

(** *** Strings *)

Lemma prefix_app (p s : string) : String.prefix p (p ++ s) = true.
Proof.
  induction p as [|c p IH]; simpl.
  - now destruct s.
  - destruct (ascii_dec c c) as [_|ne]; [exact IH | now elim ne].
Qed.

Lemma drop_app (p s : string) : JsString.drop (String.length p) (p ++ s) = s.
Proof. induction p as [|c p IH]; simpl; [reflexivity | exact IH]. Qed.

Lemma splitAtFirst_prefix (p s : string) :
  JsString.splitAtFirst p (p ++ s) = Some (EmptyString, s).
Proof.
  assert (E : forall t, String.prefix p t = true ->
            JsString.splitAtFirst p t = Some (EmptyString, JsString.drop (String.length p) t)).
  { intros t Ht. destruct t; cbn [JsString.splitAtFirst]; now rewrite Ht. }
  rewrite E by apply prefix_app. now rewrite drop_app.
Qed.

(** Removing a prefix that is there. *)
Lemma replace_prefix (p s : string) : JsString.replace p "" (p ++ s) = s.
Proof. unfold JsString.replace. now rewrite splitAtFirst_prefix. Qed.



(** *** Resolution of a reference *)

(** C3.  A field rule whose [$ref] is [#/definitions/<name>], with
    [<name>] a definition of the definitions mapping, is resolved; every
    attribute of the resolved rule is the field rule's when the field
    rule has it and the definition's otherwise, and the resolved rule has
    no [$ref]. *)
Theorem C3_reference_resolution
        (definitions : gmap string JsonRule) (fieldRule d : JsonRule) (name : string) :
  ref fieldRule = Some ("#/definitions/" ++ name) ->
  definitions !! name = Some d ->
  exists resolved,
    resolveRule definitions fieldRule = inl resolved
    /\ ref resolved = None
    /\ (let merged {A} (attribute : JsonRule -> option A) :=
          attribute resolved = match attribute fieldRule with
                               | Some x => Some x
                               | None => attribute d
                               end in
        merged type /\ merged required /\ merged minLength /\ merged maxLength
        /\ merged pattern /\ merged allowedValues /\ merged minValue /\ merged maxValue
        /\ merged customRule /\ merged minDate
        /\ merged errorMessageRequired /\ merged errorMessageMinLength
        /\ merged errorMessageMaxLength /\ merged errorMessagePattern
        /\ merged errorMessageAllowedValues /\ merged errorMessageType
        /\ merged errorMessageMinValue /\ merged errorMessageMaxValue
        /\ merged errorMessageMinDate /\ merged errorMessageCustomRule).
Proof.
  intros Href Hdef. unfold resolveRule. rewrite Href.
  change (truthy (Some ("#/definitions/" ++ name))) with (Some ("#/definitions/" ++ name)).
  cbv beta iota zeta. rewrite replace_prefix. unfold getProperty. rewrite Hdef.
  eexists. split; [reflexivity|]. split; [reflexivity|].
  cbn [deleteRef spread type required minLength maxLength pattern allowedValues minValue
       maxValue customRule minDate errorMessageRequired errorMessageMinLength
       errorMessageMaxLength errorMessagePattern errorMessageAllowedValues errorMessageType
       errorMessageMinValue errorMessageMaxValue errorMessageMinDate errorMessageCustomRule].
  unfold over.
  repeat split;
    match goal with |- context [match ?a fieldRule with _ => _ end] =>
      destruct (a fieldRule); reflexivity end.
Qed.

(** *** The loop over the fields *)


Lemma isString_true (a : option string) (b : string) :
  a = Some b -> isString a b = true.
Proof. intros ->. apply String.eqb_refl. Qed.

(** The console only grows, and the shape does not depend on it. *)
Lemma fold_buildField_console (definitions : gmap string JsonRule)
      (l : list (string * JsonRule)) (shape : gmap string MixedSchema)
      (console : list Diagnostic) :
  fold_left (buildField definitions) l (shape, console) =
  (fst (fold_left (buildField definitions) l (shape, [])),
   (console ++ snd (fold_left (buildField definitions) l (shape, [])))%list).
Proof.
  revert shape console. induction l as [|[f r] l IH]; intros shape console.
  - simpl. now rewrite app_nil_r.
  - cbn [fold_left]. unfold buildField at 2 4 6. 
    destruct (resolveRule definitions r) as [rules|w].
    + destruct (compileField f rules) as [v log].
      rewrite IH. rewrite (IH _ ([] ++ log)%list). cbn [fst snd app].
      now rewrite app_assoc.
    + rewrite IH. rewrite (IH _ ([] ++ [w])%list). cbn [fst snd app].
      now rewrite <- app_assoc.
Qed.

(** Only the fields of the document get a validator. *)
Lemma buildYupSchema_keys (definitions : gmap string JsonRule)
      (l : list (string * JsonRule)) (shape : gmap string MixedSchema)
      (console : list Diagnostic) (f : string) :
  fst (fold_left (buildField definitions) l (shape, console)) !! f <> None ->
  shape !! f <> None \/ In f (map fst l).
Proof.
  revert shape console. induction l as [|[g r] l IH]; intros shape console E.
  - now left.
  - cbn [fold_left] in E. unfold buildField at 2 in E.
    destruct (resolveRule definitions r) as [rules|w].
    + destruct (compileField g rules) as [v log].
      apply IH in E as [E|E]; [|right; now right].
      destruct (decide (g = f)) as [->|ne]; [right; now left|].
      left. now rewrite lookup_insert_ne in E.
    + apply IH in E as [E|E]; [now left | right; now right].
Qed.

(** A reference to a name that is neither a definition nor a member of
    [Object.prototype] does not resolve. *)
Lemma resolveRule_missing (definitions : gmap string JsonRule) (r : JsonRule)
      (name : string) :
  ref r = Some ("#/definitions/" ++ name) ->
  definitions !! name = None ->
  existsb (String.eqb name) objectPrototypeKeys = false ->
  resolveRule definitions r =
  inr (ConsoleWarn ("Validation definition not found for $ref: #/definitions/" ++ name)).
Proof.
  intros Href Hdef Hproto. unfold resolveRule. rewrite Href.
  change (truthy (Some ("#/definitions/" ++ name))) with (Some ("#/definitions/" ++ name)).
  cbv beta iota zeta. rewrite replace_prefix. unfold getProperty.
  now rewrite Hdef, Hproto.
Qed.

(** A field whose reference names a definition that is not in the
    definitions mapping, and that is not the name of a member of
    [Object.prototype], gets no validator; a warning is written; every
    other field is compiled as in the document without that field. *)
Theorem missing_definition_field_skipped
        (definitions : gmap string JsonRule) (pre post : list (string * JsonRule))
        (f name : string) (r : JsonRule) :
  ref r = Some ("#/definitions/" ++ name) ->
  definitions !! name = None ->
  existsb (String.eqb name) objectPrototypeKeys = false ->
  ~ In f (map fst (pre ++ post)) ->
  fst (buildYupSchema (pre ++ (f, r) :: post) definitions) !! f = None
  /\ In (ConsoleWarn ("Validation definition not found for $ref: #/definitions/" ++ name))
        (snd (buildYupSchema (pre ++ (f, r) :: post) definitions))
  /\ fst (buildYupSchema (pre ++ (f, r) :: post) definitions)
     = fst (buildYupSchema (pre ++ post) definitions).
Proof.
  intros Href Hdef Hproto Hfresh.
  pose proof (resolveRule_missing definitions r name Href Hdef Hproto) as Hres.
  assert (E : buildYupSchema (pre ++ (f, r) :: post) definitions =
              (fst (buildYupSchema (pre ++ post) definitions),
               (snd (fold_left (buildField definitions) pre (∅, []))
                ++ ConsoleWarn ("Validation definition not found for $ref: #/definitions/"
                                ++ name)
                :: snd (fold_left (buildField definitions) post
                          (fst (fold_left (buildField definitions) pre (∅, [])), [])))%list)).
  { unfold buildYupSchema. rewrite !fold_left_app. cbn [fold_left].
    destruct (fold_left (buildField definitions) pre (∅, [])) as [shape console] eqn:Epre.
    unfold buildField at 2. rewrite Hres.
    rewrite fold_buildField_console.
    rewrite (fold_buildField_console definitions post shape console).
    cbn [fst snd]. f_equal. now rewrite <- app_assoc. }
  rewrite E. cbn [fst snd]. split; [|split; [|reflexivity]].
  - destruct (fst (buildYupSchema (pre ++ post) definitions) !! f) eqn:El; [|reflexivity].
    exfalso. unfold buildYupSchema in El.
    destruct (buildYupSchema_keys definitions (pre ++ post) ∅ [] f) as [K|K].
    + now rewrite El.
    + now rewrite lookup_empty in K.
    + now apply Hfresh.
  - apply in_or_app. right. now left.
Qed.

(** C4 (the code departs from the claim).  The definitions mapping is
    empty, so the reference of the field names no definition; the name is
    the one of a member of [Object.prototype], the lookup finds that
    member, and the field is compiled from its own attributes with no
    warning. *)
Theorem C4_inherited_name_is_not_skipped :
  let definitions : gmap string JsonRule := ∅ in
  let fieldRule :=
    mkRule (Some "string") (Some true) None None None None None None None None None
           None None None None None None None None None
           (Some "#/definitions/constructor") in
  definitions !! "constructor" = None
  /\ fst (buildYupSchema [("memo", fieldRule)] definitions) !! "memo"
     = Some (fst (compileField "memo" (deleteRef fieldRule)))
  /\ snd (buildYupSchema [("memo", fieldRule)] definitions) = [].
Proof.
  cbv zeta. split; [apply lookup_empty|].
  unfold buildYupSchema. cbn [fold_left]. unfold buildField.
  replace (resolveRule ∅ _) with
    (inl (deleteRef (mkRule (Some "string") (Some true) None None None None None None None
                            None None None None None None None None None None None
                            (Some "#/definitions/constructor")))
     : JsonRule + Diagnostic).
  - split; [apply lookup_insert_eq | reflexivity].
  - unfold resolveRule.
    change (truthy _) with (Some "#/definitions/constructor").
    cbv beta iota zeta.
    change (JsString.replace "#/definitions/" "" "#/definitions/constructor")
      with "constructor".
    unfold getProperty. rewrite lookup_empty. reflexivity.
Qed.

(** *** Required string fields *)






(** *** Fields of an unsupported kind *)


(** *** Date fields *)

Lemma validate_present_plain (fieldName : string) (rules : JsonRule)
      (ts : list (string * FieldTest)) (now : Z) (v : value) :
  plainAbsent v = false ->
  validate (baseValidator plainTransform fieldName rules ts) now v
  = runFieldTests ts now v.
Proof.
  intros Hv. unfold baseValidator, validate.
  destruct (isTrue (required rules)); cbn [transform presence mixedTests];
    destruct v as [| |b|n|s| |]; try discriminate Hv; try reflexivity;
    cbn [plainTransform]; cbn [plainAbsent] in Hv; rewrite Hv; reflexivity.
Qed.

Lemma validate_present_string (fieldName : string) (rules : JsonRule)
      (ts : list (string * FieldTest)) (now : Z) (v : value) :
  stringAbsent v = false ->
  validate (baseValidator stringTransform fieldName rules ts) now v
  = runFieldTests ts now v.
Proof.
  intros Hv. unfold baseValidator, validate.
  destruct (isTrue (required rules)); cbn [transform presence mixedTests];
    destruct v as [| |b|n|s| |]; try discriminate Hv; try reflexivity;
    cbn [stringTransform]; cbn [stringAbsent] in Hv; rewrite Hv; reflexivity.
Qed.


(** *** String fields *)

Lemma catchError_validateSync (I T : Type) (s : Schema I T) (input : I) :
  catchError (validateSync s input) =
  match castValue s input with
  | None => CreateError (typeErrorMessage s)
  | Some v =>
      match runTests (match whitelistError s with Some w => [w] | None => [] end
                      ++ tests s)%list v with
      | Some e => CreateError (errMessage e)
      | None => Pass
      end
  end.
Proof.
  unfold validateSync. destruct (castValue s input) as [v|]; [|reflexivity].
  destruct (whitelistError s) as [w|]; cbn [app runTests].
  - destruct (testFn w v); [|reflexivity].
    destruct (runTests (tests s) v); reflexivity.
  - destruct (runTests (tests s) v); reflexivity.
Qed.

(** What the test of a string field answers: the type check on the value
    coerced to a string, then the checks in the order allowed values,
    minimum length, maximum length, pattern. *)
Lemma stringTest_chain (fieldName : string) (rules : JsonRule) (now : Z) (v : value) :
  fst (stringTest fieldName rules now v) =
  match v with
  | VNull | VUndefined => Pass
  | _ =>
      match checkedString v with
      | None => CreateError (orElse (errorMessageType rules)
                                    "Invalid value, must be a string.")
      | Some s =>
          match firstFailure (stringChain rules s) with
          | None => Pass
          | Some c => CreateError (checkMessage c)
          end
      end
  end.
Proof.
  unfold stringTest, stringChain, allowedValuesCheck, minLengthCheck, maxLengthCheck,
    patternCheck, render.
  destruct v as [| |b|n|s| |]; try reflexivity;
    (destruct (minLength rules) as [mn|], (maxLength rules) as [mx|],
       (truthy (pattern rules)) as [p|], (allowedValues rules) as [enums|];
     try destruct (newRegExp p) as [regex|];
     cbn [fst]; rewrite catchError_validateSync;
     unfold string_min, string_max, string_matches, yup_oneOf, yup_test, yup_typeError,
       yup_string, includesString;
     cbn;
     repeat match goal with
            | |- context [if ?c then _ else _] => destruct c; cbn
            end;
     try reflexivity).
Qed.

Lemma validator_string_present (fieldName : string) (rules : JsonRule) (now : Z)
      (v : value) :
  type rules = Some "string" ->
  stringAbsent v = false ->
  validator fieldName rules now v =
  (match fst (stringTest fieldName rules now v) with
   | Pass => Valid
   | CreateError m => Invalid (mkError (NamedTest (fieldTestName "string" fieldName)) m)
   end, snd (stringTest fieldName rules now v)).
Proof.
  intros Htype Hv. unfold validator, compileField. rewrite (isString_true _ _ Htype).
  cbn [fst]. rewrite validate_present_string by exact Hv. cbn [runFieldTests].
  destruct (stringTest fieldName rules now v) as [[|m] log]; cbn [fst snd];
    [now rewrite app_nil_r | reflexivity].
Qed.

(** The outcome of a string field on a present value: the type check on
    the checked string, then the chain of checks. *)
Lemma string_field_outcome
      (fieldName : string) (rules : JsonRule) (now : Z) (v : value) :
  type rules = Some "string" ->
  stringAbsent v = false ->
  fst (validator fieldName rules now v) =
  match checkedString v with
  | None =>
      Invalid (mkError (NamedTest (fieldTestName "string" fieldName))
                 (orElse (errorMessageType rules) "Invalid value, must be a string."))
  | Some s => chainOutcome (fieldTestName "string" fieldName) (stringChain rules s)
  end.
Proof.
  intros Htype Hv. rewrite (validator_string_present _ _ _ _ Htype Hv). cbn [fst].
  rewrite stringTest_chain. unfold chainOutcome.
  destruct v as [| |b|n|s| |]; try discriminate Hv; cbn [checkedString];
    try reflexivity;
    try (destruct b; destruct (firstFailure _); reflexivity);
    destruct (firstFailure _); reflexivity.
Qed.




(** *** Every failure *)






(** *** A pattern that is not a regular expression *)




(** *** Messages *)

(** The message of a failed [maxLength] check, for a field whose
    messages are reported as they are rendered (the maximum is a safe
    integer and the rendered text has no token for yup to rewrite): the
    template, or the generic text when the rule has no template, with
    the first [{maxLength}] replaced by the number. *)
Theorem maxLength_message (fieldName : string) (rules : JsonRule) (now : Z)
        (s : string) (n : Z) :
  reportedAsRendered fieldName rules = true ->
  type rules = Some "string" ->
  maxLength rules = Some n ->
  minLength rules = None ->
  allowedValues rules = None ->
  JsString.isEmpty (JsString.trim s) = false ->
  n < JsString.len (JsString.trim s) ->
  fst (validator fieldName rules now (VString s)) =
  Invalid (mkError (NamedTest (fieldTestName "string" fieldName))
             (JsString.replace "{maxLength}" (JsString.ofZ n)
                (orElse (errorMessageMaxLength rules) "Maximum length is {maxLength}"))).
Proof.
  intros _.
  intros Htype Hmax Hmin Hallowed Hpresent Hlong.
  rewrite string_field_outcome by assumption.
  cbn [checkedString]. unfold chainOutcome, stringChain, allowedValuesCheck,
    minLengthCheck, maxLengthCheck.
  rewrite Hmax, Hmin, Hallowed. cbn [app firstFailure checkHolds].
  destruct (Z.leb_spec (JsString.len (JsString.trim s)) n) as [Hle|_]; [lia|].
  reflexivity.
Qed.

(** C9 (the code departs from the claim).  A template that holds its
    placeholder twice: the rendered message keeps the second
    [{maxLength}], where the claim has it replaced like the first. *)
Theorem C9_second_placeholder_is_kept :
  let rules :=
    mkRule (Some "string") (Some true) None (Some 3) None None None None None None None
           None (Some "At most {maxLength} characters ({maxLength} allowed).")
           None None None None None None None None in
  fst (validator "memo" rules 0 (VString "abcd"))
  = Invalid (mkError (NamedTest "is-string-and-valid-memo")
               "At most 3 characters ({maxLength} allowed).")
  /\ replaceAll 8 "{maxLength}" (JsString.ofZ 3)
       "At most {maxLength} characters ({maxLength} allowed)."
     = "At most 3 characters (3 allowed).".
Proof. cbv zeta. split; reflexivity. Qed.

(** *** Holidays *)

(** C10 (the code departs from the claim).  The first of January of the
    year -2024 is a valid date outside 2025; its year is printed as 2025,
    the year of its era, and it is taken for New Year's Day 2025. *)
Theorem C10_year_of_the_era_is_compared :
  let t := makeDay (-2024) 1 1 * msPerDay in
  timeClip t = Time t
  /\ (getFullYear t, getMonth1 t, getDate t) = (-2024, 1, 1)
  /\ format_yyyy_MM_dd t = "2025-01-01"
  /\ isPublicHoliday (Time t) = true.
Proof. cbv zeta. repeat split; reflexivity. Qed.

(** *** The holiday table *)

Lemma civil_month_day_range (z : Z) :
  1 <= snd (fst (civil z)) <= 12 /\ 1 <= snd (civil z) <= 31.
Proof.
  unfold civil. cbv zeta.
  set (doe := z + 719468 - (z + 719468) / 146097 * 146097).
  assert (Hdoe : 0 <= doe <= 146096).
  { subst doe. pose proof (Z.mod_pos_bound (z + 719468) 146097 ltac:(lia)) as Hmod.
    rewrite Z.mod_eq in Hmod by lia. lia. }
  clearbody doe.
  set (yoe := (doe - doe / 1460 + doe / 36524 - doe / 146096) / 365).
  set (doy := doe - (365 * yoe + yoe / 4 - yoe / 100)).
  assert (Hdoy : 0 <= doy <= 365).
  { subst doy yoe. Z.to_euclidean_division_equations; lia. }
  clearbody doy.
  set (mp := (5 * doy + 2) / 153).
  cbn [fst snd].
  assert (Hmp : 0 <= mp <= 11) by (subst mp; Z.to_euclidean_division_equations; lia).
  destruct (Z.ltb_spec mp 10); cbn [fst snd]; 
  destruct (Z.leb_spec (if mp <? 10 then mp + 3 else mp - 9) 2); cbn [fst snd];
  subst mp; Z.to_euclidean_division_equations; lia.
Qed.

Lemma digitVal_digitChar (k : Z) :
  0 <= k <= 9 -> digitVal (JsString.digitChar k) = Some k.
Proof.
  intros Hk.
  assert (E : k = 0 \/ k = 1 \/ k = 2 \/ k = 3 \/ k = 4 \/ k = 5 \/ k = 6 \/ k = 7
              \/ k = 8 \/ k = 9) by lia.
  repeat (destruct E as [->|E]; [reflexivity|]). now subst.
Qed.

Lemma mod10_digit (n : Z) : 0 <= n mod 10 <= 9.
Proof. pose proof (Z.mod_pos_bound n 10 ltac:(lia)). lia. Qed.

Lemma pads4_all (y : Z) : 0 <= y <= 9999 -> pads4 y = true.
Proof.
  intros Hy. unfold pads4, addLeadingZeros, JsString.ofZ.
  rewrite Z.abs_eq by lia.
  destruct (Z.ltb_spec y 0) as [Hneg|_]; [lia|].
  cbn [JsString.digits].
  destruct (Z.ltb_spec y 10) as [H1|H1];
    [|destruct (Z.ltb_spec (y / 10) 10) as [H2|H2];
      [|destruct (Z.ltb_spec (y / 10 / 10) 10) as [H3|H3];
        [|destruct (Z.ltb_spec (y / 10 / 10 / 10) 10) as [H4|H4];
          [|exfalso; Z.to_euclidean_division_equations; lia]]]];
    cbv beta iota zeta delta [padStart String.length Nat.sub zeros String.append
                                list_ascii_of_string digitsVal];
    rewrite ?digitVal_digitChar by apply mod10_digit;
    change (digitVal "0") with (Some 0);
    cbv beta iota;
    apply Z.eqb_eq; Z.to_euclidean_division_equations; lia.
Qed.

Lemma pads2_all (n : Z) : 0 <= n <= 99 -> pads2 n = true.
Proof.
  intros Hn. unfold pads2, addLeadingZeros, JsString.ofZ.
  rewrite Z.abs_eq by lia.
  destruct (Z.ltb_spec n 0) as [Hneg|_]; [lia|].
  cbn [JsString.digits].
  destruct (Z.ltb_spec n 10) as [H1|H1];
    [|destruct (Z.ltb_spec (n / 10) 10) as [H2|H2];
      [|exfalso; Z.to_euclidean_division_equations; lia]];
    cbv beta iota zeta delta [padStart String.length Nat.sub zeros String.append
                                list_ascii_of_string digitsVal];
    rewrite ?digitVal_digitChar by apply mod10_digit;
    change (digitVal "0") with (Some 0);
    cbv beta iota;
    apply Z.eqb_eq; Z.to_euclidean_division_equations; lia.
Qed.

Lemma list_ascii_of_string_app (a b : string) :
  list_ascii_of_string (a ++ b) = (list_ascii_of_string a ++ list_ascii_of_string b)%list.
Proof.
  induction a as [|c a IH]; [reflexivity|].
  change (c :: list_ascii_of_string (a ++ b) = c :: (list_ascii_of_string a ++ list_ascii_of_string b)%list).
  now f_equal.
Qed.

Lemma parse_of_format (y m d : Z) :
  0 <= y <= 9999 -> 0 <= m <= 99 -> 0 <= d <= 99 ->
  parseCalendarDate (addLeadingZeros y 4 ++ "-" ++ addLeadingZeros m 2 ++ "-"
                     ++ addLeadingZeros d 2)
  = Some (dateOfCivil y m d).
Proof.
  intros Hy Hm Hd.
  pose proof (pads4_all y Hy) as Py. pose proof (pads2_all m Hm) as Pm.
  pose proof (pads2_all d Hd) as Pd. unfold pads4, pads2 in *.
  unfold parseCalendarDate. rewrite !list_ascii_of_string_app.
  destruct (list_ascii_of_string (addLeadingZeros y 4)) as [|y1 [|y2 [|y3 [|y4 [|]]]]];
    try discriminate Py.
  destruct (list_ascii_of_string (addLeadingZeros m 2)) as [|m1 [|m2 [|]]];
    try discriminate Pm.
  destruct (list_ascii_of_string (addLeadingZeros d 2)) as [|d1 [|d2 [|]]];
    try discriminate Pd.
  cbn [app list_ascii_of_string]. 
  destruct (digitsVal 0 [y1; y2; y3; y4]) as [vy|]; [|discriminate Py].
  destruct (digitsVal 0 [m1; m2]) as [vm|]; [|discriminate Pm].
  destruct (digitsVal 0 [d1; d2]) as [vd|]; [|discriminate Pd].
  apply Z.eqb_eq in Py, Pm, Pd. subst. reflexivity.
Qed.

Lemma validateDate_bounds (y m d : Z) :
  validateDate y m d = true ->
  1 <= m <= 12 /\ 1 <= d <= 31
  /\ (m = 2 -> d <= 29 /\ (d = 29 -> y mod 4 = 0))
  /\ (m = 4 \/ m = 6 \/ m = 9 \/ m = 11 -> d <= 30).
Proof.
  unfold validateDate. intros E.
  apply andb_prop in E as [E Hd2]. apply andb_prop in E as [E Hd1].
  apply andb_prop in E as [Hm1 Hm2].
  apply Z.leb_le in Hd2, Hd1, Hm1, Hm2.
  assert (D : daysInMonth y m <= 31
              /\ (m = 2 -> daysInMonth y m <= 29
                           /\ (daysInMonth y m = 29 -> y mod 4 = 0))
              /\ (m = 4 \/ m = 6 \/ m = 9 \/ m = 11 -> daysInMonth y m <= 30)).
  { unfold daysInMonth, isLeapYearIndex.
    destruct (Z.eqb_spec m 2) as [->|ne2].
    - destruct (Z.eqb_spec (y mod 400) 0) as [e400|n400];
        destruct (Z.eqb_spec (y mod 4) 0) as [e4|n4];
        destruct (Z.eqb_spec (y mod 100) 0) as [e100|n100];
        cbn [orb andb negb]; repeat split; intros; try lia.
      all: Z.to_euclidean_division_equations; lia.
    - destruct (Z.eqb_spec m 4), (Z.eqb_spec m 6), (Z.eqb_spec m 9), (Z.eqb_spec m 11);
        cbn [orb]; repeat split; intros; lia. }
  destruct D as (D1 & D2 & D3). repeat split; lia.
Qed.

Lemma makeDay_holiday (y m d mi di : Z) :
  validateDate y m d = true ->
  In (mi, di) holidayMonthDays ->
  makeDay y m d = makeDay 2025 mi di ->
  y = 2025 /\ m = mi /\ d = di.
Proof.
  intros Hv Hin. apply validateDate_bounds in Hv as (Hm & Hd & Hfeb & H30).
  unfold holidayMonthDays in Hin. cbn [In] in Hin.
  repeat (destruct Hin as [[= <- <-]|Hin]; [
    match goal with |- makeDay _ _ _ = ?c -> _ => let v := eval vm_compute in c in change c with v end;
    unfold makeDay; cbv zeta;
    destruct (Z.leb_spec m 2);
    intros E; Z.to_euclidean_division_equations; lia |]).
  contradiction.
Qed.

Lemma makeDay_bound (y m d : Z) :
  1 <= y <= 9999 -> 1 <= m <= 12 -> 1 <= d <= 31 ->
  Z.abs (makeDay y m d * msPerDay) <= 8640000000000000.
Proof.
  intros Hy Hm Hd. unfold makeDay, msPerDay. cbv zeta.
  destruct (Z.leb_spec m 2); Z.to_euclidean_division_equations; lia.
Qed.

Lemma eqb_holiday (y m d mi di : Z) :
  validateDate y m d = true ->
  In (mi, di) holidayMonthDays ->
  (makeDay y m d * msPerDay =? makeDay 2025 mi di * msPerDay)
  = (y =? 2025) && ((m =? mi) && (d =? di)).
Proof.
  intros Hv Hin.
  destruct (Z.eqb_spec (makeDay y m d * msPerDay) (makeDay 2025 mi di * msPerDay)) as [E|E].
  - assert (E' : makeDay y m d = makeDay 2025 mi di) by (unfold msPerDay in E; lia).
    destruct (makeDay_holiday y m d mi di Hv Hin E') as (-> & -> & ->).
    now rewrite !Z.eqb_refl.
  - destruct (Z.eqb_spec y 2025) as [->|]; [|reflexivity].
    destruct (Z.eqb_spec m mi) as [->|]; [|reflexivity].
    destruct (Z.eqb_spec d di) as [->|]; [|reflexivity].
    now elim E.
Qed.

Lemma holidays_table :
  US_HOLIDAYS_2025
  = map (fun md => Time (makeDay 2025 (fst md) (snd md) * msPerDay)) holidayMonthDays.
Proof. reflexivity. Qed.

Lemma existsb_holidays (y m d : Z) (l : list (Z * Z)) :
  validateDate y m d = true ->
  (forall md, In md l -> In md holidayMonthDays) ->
  existsb (fun holiday => isValid holiday && isEqual (Time (makeDay y m d * msPerDay)) holiday)
          (map (fun md => Time (makeDay 2025 (fst md) (snd md) * msPerDay)) l)
  = (y =? 2025) && existsb (fun md => (m =? fst md) && (d =? snd md)) l.
Proof.
  intros Hv. induction l as [|[mi di] l IH]; intros Hl.
  - cbn. now rewrite andb_false_r.
  - cbn [map existsb].
    rewrite IH by (intros md Hmd; apply Hl; now right).
    cbn [isValid isEqual andb fst snd].
    rewrite (eqb_holiday y m d mi di Hv (Hl _ (or_introl eq_refl))).
    now rewrite andb_orb_distrib_r.
Qed.

Lemma holiday_is_valid_date (m d : Z) :
  existsb (fun md => (m =? fst md) && (d =? snd md)) holidayMonthDays = true ->
  validateDate 2025 m d = true.
Proof.
  intros E. apply existsb_exists in E as ([mi di] & Hin & E).
  apply andb_prop in E as [Em Ed]. apply Z.eqb_eq in Em, Ed. cbn [fst snd] in *. subst.
  unfold holidayMonthDays in Hin. cbn [In] in Hin.
  repeat (destruct Hin as [[= <- <-]|Hin]; [reflexivity|]). contradiction.
Qed.

(** For a date of the years 1 to 9999, [isPublicHoliday] answers whether
    the civil date, the time of day left out, is one of the eleven
    holidays of 2025. *)
Theorem isPublicHoliday_years_1_to_9999 (t : Z) :
  1 <= getFullYear t <= 9999 ->
  isPublicHoliday (Time t) = isHolidayOf2025 (getFullYear t) (getMonth1 t) (getDate t).
Proof.
  intros Hy. unfold isPublicHoliday, format_yyyy_MM_dd.
  pose proof (civil_month_day_range (day t)) as [Hm Hd].
  fold (getMonth1 t) in Hm. fold (getDate t) in Hd.
  set (y := getFullYear t) in *. set (m := getMonth1 t) in *. set (d := getDate t) in *.
  assert (Ey : eraYear y = y).
  { unfold eraYear. destruct (Z.gtb_spec y 0); lia. }
  rewrite Ey. unfold parseISO.
  rewrite parse_of_format by lia. unfold dateOfCivil, isHolidayOf2025.
  destruct (validateDate y m d) eqn:Hv.
  - unfold timeClip.
    destruct (Z.leb_spec (Z.abs (makeDay y m d * msPerDay)) 8640000000000000) as [_|Hbig];
      [|pose proof (makeDay_bound y m d); lia].
    cbn [isValid negb]. rewrite holidays_table.
    apply (existsb_holidays y m d holidayMonthDays Hv). auto.
  - cbn [isValid negb].
    destruct (Z.eqb_spec y 2025) as [Ey2|]; [|reflexivity]. cbn [andb].
    destruct (existsb _ holidayMonthDays) eqn:E; [|reflexivity].
    apply holiday_is_valid_date in E. rewrite Ey2 in Hv. congruence.
Qed.


(** *** Optional fields and date fields in general *)

(** A rule that is not required accepts "no value", whatever its other
    constraints, and writes nothing to the console. *)
Theorem optional_field_accepts_no_value
        (fieldName : string) (rules : JsonRule) (now : Z) (v : value) :
  isTrue (required rules) = false ->
  (if isString (type rules) "string" then stringAbsent v else plainAbsent v) = true ->
  validator fieldName rules now v = (Valid, []).
Proof.
  intros Hreq Hv. unfold validator, compileField.
  destruct (isString (type rules) "string") eqn:Es.
  - cbn [fst]. unfold baseValidator, validate. rewrite Hreq.
    cbn [transform presence mixedTests].
    destruct v as [| |b|n|s| |]; try discriminate Hv; try reflexivity.
    cbn [stringTransform]. cbn [stringAbsent] in Hv. rewrite Hv. reflexivity.
  - destruct (isString (type rules) "number"); [|destruct (isString (type rules) "date")];
      cbn [fst]; unfold baseValidator, validate; rewrite Hreq;
      cbn [transform presence mixedTests];
      (destruct v as [| |b|n|s| |]; try discriminate Hv; try reflexivity;
       cbn [plainTransform]; cbn [plainAbsent] in Hv; rewrite Hv; reflexivity).
Qed.

(** A date field on a non-empty string: a string that does not parse to
    a date fails the type check; a date is checked against the custom
    rule when the rule has [noWeekendOrHoliday], then against the start
    of the current day when the rule has [minDate: "today"].  The
    messages are given for a field whose messages are reported as they
    are rendered. *)
Theorem date_field_checks
        (fieldName : string) (rules : JsonRule) (now : Z) (s : string) :
  reportedAsRendered fieldName rules = true ->
  type rules = Some "date" ->
  s <> "" ->
  validator fieldName rules now (VString s) =
  (match parseISO s with
   | InvalidDate =>
       Invalid (mkError (NamedTest (fieldTestName "date" fieldName))
                  (orElse (errorMessageType rules) "Please enter a valid date."))
   | Time t =>
       chainOutcome (fieldTestName "date" fieldName)
         (customRuleCheck rules t ++ minDateCheck rules now t)%list
   end, []).
Proof.
  intros _.
  intros Htype Hs. unfold validator, compileField.
  assert (Hn : isString (type rules) "number" = false) by (rewrite Htype; reflexivity).
  assert (Hst : isString (type rules) "string" = false) by (rewrite Htype; reflexivity).
  rewrite Hst, Hn, (isString_true _ _ Htype). cbn [fst].
  rewrite validate_present_plain by (destruct s; [now elim Hs | reflexivity]).
  cbn [runFieldTests]. unfold dateTest, chainOutcome, customRuleCheck, minDateCheck.
  destruct (parseISO s) as [|t]; cbn [isValid negb]; [reflexivity|].
  destruct (isString (customRule rules) "noWeekendOrHoliday"); cbn [andb app firstFailure];
    [destruct (isWeekend (Time t) || isPublicHoliday (Time t));
     cbn [negb checkHolds checkMessage]; [reflexivity|] |];
    (destruct (isString (minDate rules) "today");
     unfold validateSync, date_min, yup_test, yup_typeError, yup_date;
     cbn [castValue whitelistError tests List.filter app runTests testFn testName
          testMessage typeErrorMessage firstFailure checkHolds checkMessage];
     [destruct (startOfDay now <=? t); reflexivity | reflexivity]).
Qed.

(** *** Number fields *)

(** A number field on a present value: the value as [yup.number()] casts
    it fails the type check when it is [NaN]; otherwise it is checked
    against [minValue], then against [maxValue], both bounds included by
    [<=]; nothing is written to the console.  The messages are given for
    a field whose messages are reported as they are rendered. *)
Theorem number_field_checks
        (fieldName : string) (rules : JsonRule) (now : Z) (v : value) :
  reportedAsRendered fieldName rules = true ->
  type rules = Some "number" ->
  plainAbsent v = false ->
  validator fieldName rules now v =
  (if num_isNaN (yupNumberCast v) then
     Invalid (mkError (NamedTest (fieldTestName "number" fieldName))
                (orElse (errorMessageType rules) "Must be a valid number"))
   else
     chainOutcome (fieldTestName "number" fieldName)
       (minValueCheck rules (yupNumberCast v) ++ maxValueCheck rules (yupNumberCast v))%list,
   []).
Proof.
  intros _.
  intros Htype Hv. unfold validator, compileField.
  assert (Hst : isString (type rules) "string" = false) by (rewrite Htype; reflexivity).
  rewrite Hst, (isString_true _ _ Htype). cbn [fst].
  rewrite validate_present_plain by exact Hv. cbn [runFieldTests].
  assert (E : forall w, w <> VNull -> w <> VUndefined ->
            numberTest rules now w =
            (if num_isNaN (yupNumberCast w) then
               CreateError (orElse (errorMessageType rules) "Must be a valid number")
             else
               match firstFailure (minValueCheck rules (yupNumberCast w)
                                   ++ maxValueCheck rules (yupNumberCast w))%list with
               | None => Pass
               | Some c => CreateError (checkMessage c)
               end, [])).
  { intros w Hn Hu. unfold numberTest, minValueCheck, maxValueCheck, render.
    destruct w as [| |b|n|s| |]; try (now elim Hn); try (now elim Hu);
      (rewrite catchError_validateSync;
       destruct (minValue rules) as [mn|], (maxValue rules) as [mx|];
       unfold number_min, number_max, yup_test, yup_typeError, yup_number;
       cbn [castValue whitelistError tests List.filter app runTests testFn testName
            testMessage typeErrorMessage testExclusive andb negb String.eqb Ascii.eqb
            Bool.eqb firstFailure checkHolds checkMessage errMessage];
       cbv zeta;
       match goal with
       | |- context [num_isNaN ?x] => destruct (num_isNaN x)
       end; cbn [runTests testFn testName testMessage firstFailure checkHolds
                 checkMessage errMessage app]; try reflexivity;
       repeat match goal with
              | |- context [num_leb ?a ?b] => destruct (num_leb a b);
                  cbn [runTests testFn testName testMessage firstFailure checkHolds
                       checkMessage errMessage app]
              end; reflexivity). }
  rewrite E by (destruct v; discriminate).
  unfold chainOutcome.
  destruct (num_isNaN (yupNumberCast v)); [reflexivity|].
  destruct (firstFailure _); reflexivity.
Qed.

(** *** Acceptance does not depend on the order of the checks *)

Lemma firstFailure_none (cs : list Check) :
  firstFailure cs = None <-> forallb checkHolds cs = true.
Proof.
  induction cs as [|c cs IH]; [now split|]. cbn [firstFailure forallb].
  destruct (checkHolds c); cbn [andb]; [exact IH | split; discriminate].
Qed.

Lemma chainOutcome_valid (name : string) (cs : list Check) :
  chainOutcome name cs = Valid <-> forallb checkHolds cs = true.
Proof.
  unfold chainOutcome. rewrite <- firstFailure_none.
  destruct (firstFailure cs); split; intros E; try discriminate; reflexivity.
Qed.

(** A present value of a string field is accepted exactly when it is
    checked as a string and every check of the rule holds on that string,
    in whatever order the checks are listed; the order of the
    specification is taken here. *)
Theorem string_field_accepts_iff_all_checks_hold
        (fieldName : string) (rules : JsonRule) (now : Z) (v : value) :
  type rules = Some "string" ->
  stringAbsent v = false ->
  fst (validator fieldName rules now v) = Valid
  <-> exists s, checkedString v = Some s
                /\ forallb checkHolds (specStringChain rules s) = true.
Proof.
  intros Htype Hv. rewrite (string_field_outcome _ _ _ _ Htype Hv).
  assert (P : forall s, forallb checkHolds (stringChain rules s)
                        = forallb checkHolds (specStringChain rules s)).
  { intros s. unfold stringChain, specStringChain. rewrite !forallb_app.
    destruct (forallb checkHolds (allowedValuesCheck rules s)),
      (forallb checkHolds (minLengthCheck rules s)),
      (forallb checkHolds (maxLengthCheck rules s)),
      (forallb checkHolds (patternCheck rules s)); reflexivity. }
  destruct (checkedString v) as [s|].
  - rewrite chainOutcome_valid, P. split.
    + intros E. now exists s.
    + now intros (s' & [= <-] & E).
  - split; [discriminate | now intros (s' & E & _)].
Qed.

(** The outcome of a date field on a non-empty string. *)
Lemma date_field_outcome
        (fieldName : string) (rules : JsonRule) (now : Z) (s : string) :
  type rules = Some "date" ->
  s <> "" ->
  validator fieldName rules now (VString s) =
  (match parseISO s with
   | InvalidDate =>
       Invalid (mkError (NamedTest (fieldTestName "date" fieldName))
                  (orElse (errorMessageType rules) "Please enter a valid date."))
   | Time t =>
       chainOutcome (fieldTestName "date" fieldName)
         (customRuleCheck rules t ++ minDateCheck rules now t)%list
   end, []).
Proof.
  intros Htype Hs. unfold validator, compileField.
  assert (Hn : isString (type rules) "number" = false) by (rewrite Htype; reflexivity).
  assert (Hst : isString (type rules) "string" = false) by (rewrite Htype; reflexivity).
  rewrite Hst, Hn, (isString_true _ _ Htype). cbn [fst].
  rewrite validate_present_plain by (destruct s; [now elim Hs | reflexivity]).
  cbn [runFieldTests]. unfold dateTest, chainOutcome, customRuleCheck, minDateCheck.
  destruct (parseISO s) as [|t]; cbn [isValid negb]; [reflexivity|].
  destruct (isString (customRule rules) "noWeekendOrHoliday"); cbn [andb app firstFailure];
    [destruct (isWeekend (Time t) || isPublicHoliday (Time t));
     cbn [negb checkHolds checkMessage]; [reflexivity|] |];
    (destruct (isString (minDate rules) "today");
     unfold validateSync, date_min, yup_test, yup_typeError, yup_date;
     cbn [castValue whitelistError tests List.filter app runTests testFn testName
          testMessage typeErrorMessage firstFailure checkHolds checkMessage];
     [destruct (startOfDay now <=? t); reflexivity | reflexivity]).
Qed.

(** A date that parses is accepted by a date field exactly when it
    passes the minimum date and the custom rule of the rule, whichever is
    checked first. *)
Theorem date_field_accepts_iff_all_checks_hold
        (fieldName : string) (rules : JsonRule) (now : Z) (s : string) (t : Z) :
  type rules = Some "date" ->
  s <> "" ->
  parseISO s = Time t ->
  fst (validator fieldName rules now (VString s)) = Valid
  <-> forallb checkHolds (specDateChain rules now t) = true.
Proof.
  intros Htype Hs Hparse.
  rewrite (date_field_outcome _ _ _ _ Htype Hs), Hparse. cbn [fst].
  rewrite chainOutcome_valid. unfold specDateChain. rewrite !forallb_app.
  now rewrite andb_comm.
Qed.

(** *** Surrounding whitespace *)







(** *** Resolution, again *)

(** Resolving is idempotent: a rule that came out of the resolution has
    no reference left to follow, and resolves to itself against any
    definitions. *)
Theorem resolveRule_idempotent
        (definitions definitions' : gmap string JsonRule) (fieldRule rules : JsonRule) :
  resolveRule definitions fieldRule = inl rules ->
  truthy (ref rules) = None /\ resolveRule definitions' rules = inl rules.
Proof.
  unfold resolveRule. intros E.
  assert (T : truthy (ref rules) = None).
  { destruct (truthy (ref fieldRule)) as [r|] eqn:Er.
    - destruct (getProperty definitions (JsString.replace "#/definitions/" "" r));
        try discriminate E; injection E as <-; reflexivity.
    - injection E as <-. exact Er. }
  split; [exact T|]. now rewrite T.
Qed.

(** A field that only refers to a definition is validated as a field
    carrying the rule of the definition. *)
Theorem reference_only_field_validates_as_definition
        (definitions : gmap string JsonRule) (name fieldName : string) (d : JsonRule)
        (now : Z) (v : value) :
  definitions !! name = Some d ->
  exists rules,
    resolveRule definitions (referenceOnly name) = inl rules
    /\ validator fieldName rules now v = validator fieldName d now v.
Proof.
  intros Hdef. unfold resolveRule, referenceOnly. cbn [ref].
  change (truthy (Some ("#/definitions/" ++ name))) with (Some ("#/definitions/" ++ name)).
  cbv beta iota zeta. rewrite replace_prefix. unfold getProperty. rewrite Hdef.
  eexists. split; [reflexivity|]. destruct d. reflexivity.
Qed.

(** *** The shape and the console of a document *)

Lemma buildYupSchema_console_flat_map
      (configSection : list (string * JsonRule)) (definitions : gmap string JsonRule) :
  snd (buildYupSchema configSection definitions)
  = flat_map (fieldDiagnostics definitions) configSection.
Proof.
  unfold buildYupSchema.
  induction configSection as [|[f r] l IH] using rev_ind; [reflexivity|].
  rewrite fold_left_app, flat_map_app. cbn [fold_left flat_map].
  destruct (fold_left (buildField definitions) l (∅, [])) as [shape console].
  cbn [snd] in IH. subst console. unfold buildField, fieldDiagnostics. cbn [fst snd].
  destruct (resolveRule definitions r) as [rules|w]; cbn [snd];
    [destruct (compileField f rules) as [fv log]; cbn [snd]|];
    now rewrite app_nil_r.
Qed.

Lemma compileField_quiet (fieldName : string) (rules : JsonRule) :
  snd (compileField fieldName rules) = [] <-> supportedType rules = true.
Proof.
  unfold compileField, supportedType.
  destruct (isString (type rules) "string"); [easy|].
  destruct (isString (type rules) "number"); [easy|].
  destruct (isString (type rules) "date"); easy.
Qed.

(** The console of [buildYupSchema] is what the fields write, field after
    field in the order of the document; it is empty exactly when every
    reference resolves and every resolved rule has one of the kinds
    string, number and date. *)
Theorem buildYupSchema_console
        (configSection : list (string * JsonRule)) (definitions : gmap string JsonRule) :
  snd (buildYupSchema configSection definitions)
  = flat_map (fieldDiagnostics definitions) configSection
  /\ (snd (buildYupSchema configSection definitions) = []
      <-> Forall (fun field =>
                    exists rules, resolveRule definitions (snd field) = inl rules
                                  /\ supportedType rules = true) configSection).
Proof.
  split; [apply buildYupSchema_console_flat_map|].
  rewrite buildYupSchema_console_flat_map.
  induction configSection as [|[f r] l IH]; cbn [flat_map].
  - split; [constructor | reflexivity].
  - unfold fieldDiagnostics at 1. cbn [fst snd]. split.
    + intros Hnil. apply app_eq_nil in Hnil as [Hf Hl]. constructor; [|now apply IH].
      cbn [snd]. destruct (resolveRule definitions r) as [rules|w]; [|discriminate Hf].
      exists rules. split; [reflexivity|]. now apply (compileField_quiet f).
    + intros Hall. inversion Hall as [|x l' (rules & Hres & Hsup) Hrest]; subst.
      cbn [snd] in Hres. rewrite Hres. rewrite (proj2 IH Hrest), app_nil_r.
      now apply compileField_quiet.
Qed.

Lemma configLookup_notin (f : string) (l : list (string * JsonRule)) :
  ~ In f (map fst l) -> configLookup f l = None.
Proof.
  induction l as [|[g r] l IH]; [reflexivity|]. cbn [map fst In configLookup].
  intros Hn. destruct (String.eqb_spec g f) as [->|ne]; [elim Hn; now left|].
  apply IH. intros Hin. apply Hn. now right.
Qed.

Lemma configLookup_In (f : string) (r : JsonRule) (l : list (string * JsonRule)) :
  NoDup (map fst l) -> configLookup f l = Some r <-> In (f, r) l.
Proof.
  induction l as [|[g r'] l IH]; intros Hnd.
  - cbn. split; [discriminate | contradiction].
  - cbn [map fst] in Hnd. apply NoDup_cons in Hnd as [Hfresh Hnd].
    cbn [configLookup In]. destruct (String.eqb_spec g f) as [->|ne].
    + split; [intros [= ->]; now left|].
      intros [[= ->]|Hin]; [reflexivity|]. elim Hfresh.
      apply list_elem_of_In, in_map_iff. now exists (f, r).
    + rewrite (IH Hnd). split; [now right|].
      intros [[= -> _]|Hin]; [now elim ne | exact Hin].
Qed.

Lemma buildYupSchema_lookup_field
      (configSection : list (string * JsonRule)) (definitions : gmap string JsonRule)
      (fieldName : string) :
  NoDup (map fst configSection) ->
  fst (buildYupSchema configSection definitions) !! fieldName
  = match configLookup fieldName configSection with
    | Some fieldRule =>
        match resolveRule definitions fieldRule with
        | inl rules => Some (fst (compileField fieldName rules))
        | inr _ => None
        end
    | None => None
    end.
Proof.
  unfold buildYupSchema.
  induction configSection as [|[g r] l IH] using rev_ind; intros Hnd.
  - cbn. apply lookup_empty.
  - rewrite map_app in Hnd. cbn [map fst] in Hnd.
    apply NoDup_app in Hnd as (Hnd & Hfresh' & _).
    assert (Hfresh : ~ In g (map fst l)).
    { intros Hin. apply list_elem_of_In in Hin. apply (Hfresh' g Hin). now left. }
    clear Hfresh'.
    specialize (IH Hnd). rewrite fold_left_app. cbn [fold_left].
    destruct (fold_left (buildField definitions) l (∅, [])) as [shape console].
    cbn [fst] in IH. unfold buildField.
    assert (L : configLookup fieldName (l ++ [(g, r)])
                = match configLookup fieldName l with
                  | Some x => Some x
                  | None => if String.eqb g fieldName then Some r else None
                  end).
    { clear. induction l as [|[a b] l IHl]; cbn [app configLookup]; [reflexivity|].
      destruct (String.eqb a fieldName); [reflexivity | exact IHl]. }
    rewrite L. clear L.
    destruct (String.eqb_spec g fieldName) as [->|ne].
    + rewrite (configLookup_notin fieldName l Hfresh) in *.
      destruct (resolveRule definitions r) as [rules|w]; cbn [fst].
      * destruct (compileField fieldName rules) as [fv log]. cbn [fst].
        apply lookup_insert_eq.
      * exact IH.
    + destruct (resolveRule definitions r) as [rules|w]; cbn [fst].
      * destruct (compileField g rules) as [fv log]. cbn [fst].
        rewrite lookup_insert_ne by exact ne. rewrite IH.
        now destruct (configLookup fieldName l).
      * rewrite IH. now destruct (configLookup fieldName l).
Qed.

(** For a document whose field names are distinct and that has no field
    of the name [__proto__], the shape holds a schema for a name exactly
    when the name is a field of the document whose rule resolves, and
    the schema is then the one compiled from the resolved rule under
    that name: the fields do not interfere. *)
Theorem buildYupSchema_lookup
        (configSection : list (string * JsonRule)) (definitions : gmap string JsonRule)
        (fieldName : string) (schema : MixedSchema) :
  ~ In "__proto__" (map fst configSection) ->
  NoDup (map fst configSection) ->
  fst (buildYupSchema configSection definitions) !! fieldName = Some schema
  <-> exists fieldRule rules,
        In (fieldName, fieldRule) configSection
        /\ resolveRule definitions fieldRule = inl rules
        /\ schema = fst (compileField fieldName rules).
Proof.
  intros _.
  intros Hnd. rewrite (buildYupSchema_lookup_field _ _ _ Hnd). split.
  - destruct (configLookup fieldName configSection) as [fieldRule|] eqn:E; [|discriminate].
    destruct (resolveRule definitions fieldRule) as [rules|w] eqn:R; [|discriminate].
    intros [= <-]. exists fieldRule, rules. split; [|now split].
    now apply configLookup_In.
  - intros (fieldRule & rules & Hin & R & ->).
    apply (configLookup_In _ _ _ Hnd) in Hin. now rewrite Hin, R.
Qed.

(** *** The calendar: a day number and its civil date *)

Lemma civil_parts (z : Z) :
  exists era doe yoe doy mp,
    0 <= doe <= 146096 /\ z + 719468 = era * 146097 + doe
    /\ yoe = (doe - doe / 1460 + doe / 36524 - doe / 146096) / 365
    /\ doy = doe - (365 * yoe + yoe / 4 - yoe / 100)
    /\ 0 <= yoe <= 399 /\ 0 <= doy <= 365
    /\ mp = (5 * doy + 2) / 153 /\ 0 <= mp <= 11
    /\ civil z = (if (if mp <? 10 then mp + 3 else mp - 9) <=? 2 then yoe + era * 400 + 1 else yoe + era * 400,
                  if mp <? 10 then mp + 3 else mp - 9,
                  doy - (153 * mp + 2) / 5 + 1).
Proof.
  exists ((z + 719468) / 146097).
  exists (z + 719468 - (z + 719468) / 146097 * 146097).
  set (doe := z + 719468 - (z + 719468) / 146097 * 146097).
  assert (Hdoe : 0 <= doe <= 146096).
  { subst doe. pose proof (Z.mod_pos_bound (z + 719468) 146097 ltac:(lia)) as Hmod.
    rewrite Z.mod_eq in Hmod by lia. lia. }
  eexists _, _, _. split; [exact Hdoe|]. split; [subst doe; lia|].
  split; [reflexivity|]. split; [reflexivity|].
  split; [Z.to_euclidean_division_equations; lia|].
  split; [Z.to_euclidean_division_equations; lia|].
  split; [reflexivity|].
  split; [Z.to_euclidean_division_equations; lia|].
  reflexivity.
Qed.

Lemma makeDay_civil (z : Z) :
  makeDay (fst (fst (civil z))) (snd (fst (civil z))) (snd (civil z)) = z.
Proof.
  destruct (civil_parts z) as (era & doe & yoe & doy & mp & Hdoe & Hz & Hyoe & Hdoy & Byoe & Bdoy & Hmp & Bmp & ->).
  cbn [fst snd]. unfold makeDay. cbv zeta.
  destruct (Z.ltb_spec mp 10) as [L|L].
  - destruct (Z.leb_spec (mp + 3) 2) as [L2|L2]; [lia|].
    replace ((yoe + era * 400) / 400) with era by (Z.to_euclidean_division_equations; lia).
    replace (yoe + era * 400 - era * 400) with yoe by lia.
    replace (mp + 3 - 3) with mp by lia.
    subst doy; Z.to_euclidean_division_equations; lia.
  - destruct (Z.leb_spec (mp - 9) 2) as [L2|L2]; [|lia].
    replace (yoe + era * 400 + 1 - 1) with (yoe + era * 400) by lia.
    replace ((yoe + era * 400) / 400) with era by (Z.to_euclidean_division_equations; lia).
    replace (yoe + era * 400 - era * 400) with yoe by lia.
    replace (mp - 9 + 9) with mp by lia.
    subst doy; Z.to_euclidean_division_equations; lia.
Qed.

Lemma validateDate_intro (y m d : Z) :
  1 <= m <= 12 -> 1 <= d <= 31 ->
  (m = 2 -> d <= 28 \/ (d = 29 /\ y mod 4 = 0 /\ (y mod 100 <> 0 \/ y mod 400 = 0))) ->
  (m = 4 \/ m = 6 \/ m = 9 \/ m = 11 -> d <= 30) ->
  validateDate y m d = true.
Proof.
  intros Hm Hd Hfeb H30. unfold validateDate, daysInMonth, isLeapYearIndex.
  repeat (apply andb_true_intro; split); try (apply Z.leb_le; lia).
  apply Z.leb_le.
  destruct (Z.eqb_spec m 2) as [E2|N2].
  - destruct (Z.eqb_spec (y mod 400) 0), (Z.eqb_spec (y mod 4) 0),
      (Z.eqb_spec (y mod 100) 0); cbn [orb andb negb]; lia.
  - destruct (Z.eqb_spec m 4), (Z.eqb_spec m 6), (Z.eqb_spec m 9), (Z.eqb_spec m 11);
      cbn [orb]; lia.
Qed.

Lemma validateDate_civil (z : Z) :
  validateDate (fst (fst (civil z))) (snd (fst (civil z))) (snd (civil z)) = true.
Proof.
  destruct (civil_parts z) as (era & doe & yoe & doy & mp & Hdoe & Hz & Hyoe & Hdoy & Byoe & Bdoy & Hmp & Bmp & ->).
  cbn [fst snd].
  assert (Hnext : doe < 365 * (yoe + 1) + (yoe + 1) / 4 - (yoe + 1) / 100 \/ yoe = 399).
  { subst yoe. Z.to_euclidean_division_equations; lia. }
  destruct (Z.ltb_spec mp 10) as [L|L].
  - destruct (Z.leb_spec (mp + 3) 2) as [L2|L2]; [lia|].
    apply validateDate_intro.
    + lia.
    + Z.to_euclidean_division_equations; lia.
    + lia.
    + Z.to_euclidean_division_equations; lia.
  - destruct (Z.leb_spec (mp - 9) 2) as [L2|L2]; [|lia].
    apply validateDate_intro.
    + lia.
    + Z.to_euclidean_division_equations; lia.
    + intros Hfeb. assert (mp = 11) by lia. subst mp.
      subst doy; Z.to_euclidean_division_equations; lia.
    + lia.
Qed.

(** *** Formatting and parsing again *)

Lemma parseISO_format (t : Z) :
  1 <= getFullYear t <= 9999 ->
  parseISO (format_yyyy_MM_dd t) = Time (startOfDay t).
Proof.
  intros Hy. unfold format_yyyy_MM_dd.
  pose proof (civil_month_day_range (day t)) as [Hm Hd].
  pose proof (validateDate_civil (day t)) as Hv.
  pose proof (makeDay_civil (day t)) as Hmk.
  fold (getFullYear t) in Hv, Hmk. fold (getMonth1 t) in Hm, Hv, Hmk.
  fold (getDate t) in Hd, Hv, Hmk.
  assert (Ey : eraYear (getFullYear t) = getFullYear t).
  { unfold eraYear. destruct (Z.gtb_spec (getFullYear t) 0); lia. }
  rewrite Ey. unfold parseISO. rewrite parse_of_format by lia.
  unfold dateOfCivil. rewrite Hv. unfold timeClip.
  pose proof (makeDay_bound _ _ _ Hy Hm Hd) as Hb. rewrite Hmk in *.
  destruct (Z.leb_spec (Z.abs (day t * msPerDay)) 8640000000000000) as [_|Hbig]; [|lia].
  reflexivity.
Qed.

(** The normalisation of [isPublicHoliday] is the start of the day: for
    a date of the years 1 to 9999, formatting it as [yyyy-MM-dd] and
    parsing the text again gives midnight of the same day, so a date
    that is already at midnight is given back as it is. *)
Theorem format_then_parse_is_start_of_day (t : Z) :
  1 <= getFullYear t <= 9999 ->
  parseISO (format_yyyy_MM_dd t) = Time (startOfDay t)
  /\ (t mod msPerDay = 0 -> parseISO (format_yyyy_MM_dd t) = Time t).
Proof.
  intros Hy. rewrite (parseISO_format t Hy). split; [reflexivity|].
  intros Hmid. f_equal. unfold startOfDay, day, msPerDay in *.
  Z.to_euclidean_division_equations; lia.
Qed.

(** None of the holidays of the table falls on a Saturday or a Sunday:
    for a date of the years 1 to 9999, the two conditions of the rule
    [noWeekendOrHoliday] never hold together. *)
Theorem holiday_is_never_a_weekend_day (t : Z) :
  1 <= getFullYear t <= 9999 ->
  isPublicHoliday (Time t) = true ->
  isWeekend (Time t) = false.
Proof.
  intros Hy. unfold isPublicHoliday. rewrite (parseISO_format t Hy).
  cbn [isValid negb]. rewrite holidays_table. intros E.
  apply existsb_exists in E as (h & Hin & E).
  apply in_map_iff in Hin as ([mi di] & <- & Hin).
  cbn [isValid isEqual andb fst snd] in E. apply Z.eqb_eq in E.
  assert (Eday : day t = makeDay 2025 mi di).
  { unfold startOfDay, msPerDay in E. lia. }
  unfold isWeekend, getDay. rewrite Eday.
  unfold holidayMonthDays in Hin. cbn [In] in Hin.
  repeat (destruct Hin as [[= <- <-]|Hin]; [reflexivity|]). contradiction.
Qed.

(** *** Required fields of every kind *)


(** *** The loader and the form *)

(** The configuration the loader ships compiles: the promise of
    [getWireTransferValidationSetup] resolves and no error is written,
    every reference of the configuration names a definition and every
    field has a supported kind, so that [buildYupSchema] writes nothing
    to the console, and the shape has a schema for the seven fields of
    the form and for no other name. *)
Theorem shipped_configuration_compiles (n_0_01 n_1000000 : num) :
  exists setup,
    getWireTransferValidationSetup n_0_01 n_1000000
    = (Resolved setup, [LogLine "Fetching validation config for: wireTransferRequest"])
    /\ snd (buildYupSchema (configSection setup) (definitions setup)) = []
    /\ forall fieldName,
         fst (buildYupSchema (configSection setup) (definitions setup)) !! fieldName <> None
         <-> In fieldName wireTransferFields.
Proof.
  eexists. split; [reflexivity|]. cbn [configSection definitions]. split.
  - rewrite buildYupSchema_console_flat_map. unfold mockWireConfig. cbn [flat_map].
    assert (Q : forall f r rules,
               resolveRule (validationDefinitions n_0_01 n_1000000) r = inl rules ->
               supportedType rules = true ->
               fieldDiagnostics (validationDefinitions n_0_01 n_1000000) (f, r) = []).
    { intros f r rules R S. unfold fieldDiagnostics. cbn [fst snd]. rewrite R.
      now apply compileField_quiet. }
    repeat (erewrite Q; [|reflexivity|reflexivity]).
    reflexivity.
  - intros fieldName. split.
    + intros E. apply buildYupSchema_keys in E as [E|E].
      * now rewrite lookup_empty in E.
      * exact E.
    + intros Hin.
      assert (Hnd : NoDup (map fst mockWireConfig)).
      { apply NoDup_ListNoDup. cbn [map fst mockWireConfig].
        repeat (constructor; [cbn [In]; intuition discriminate|]). constructor. }
      rewrite (buildYupSchema_lookup_field _ _ _ Hnd).
      assert (Q : forall r rules,
                 configLookup fieldName mockWireConfig = Some r ->
                 resolveRule (validationDefinitions n_0_01 n_1000000) r = inl rules ->
                 match configLookup fieldName mockWireConfig with
                 | Some fieldRule =>
                     match resolveRule (validationDefinitions n_0_01 n_1000000) fieldRule with
                     | inl rules => Some (fst (compileField fieldName rules))
                     | inr _ => None
                     end
                 | None => None
                 end <> None).
      { intros r rules L R. now rewrite L, R. }
      unfold wireTransferFields in Hin. cbn [In] in Hin.
      repeat (destruct Hin as [<-|Hin];
              [eapply Q; [reflexivity | reflexivity]|]).
      contradiction.
Qed.

(** When [loadValidation] has run to its end the form is never left on
    the loading view nor on the preparing view: it shows the form, with
    the allowed values of the field [currency] as options, when the
    loader resolved, and the error view when the loader rejected, with
    the message of the rejection, or the default text for an empty
    message. *)
Theorem form_after_loading (setup : Settled ValidationSetup) (st : FormState) :
  renderForm (loadValidation setup st)
  = match setup with
    | Resolved s => FormView (currencyAllowedValues (Some (configSection s)))
    | Rejected message =>
        ErrorView (if JsString.isEmpty message then "Could not load form configuration."
                   else message)
    end.
Proof.
  destruct setup as [s|message]; [reflexivity|].
  unfold loadValidation, renderForm. cbn [isLoadingConfig configError orElse truthy].
  destruct message; reflexivity.
Qed.

(** *** Date fields: today, and values that are no strings *)





(** A date field given a value that is present and is not a string (a
    number, a boolean, an array, an object) fails its test with the type
    message, by default "Date must be a valid string input.", when that
    message is reported as it is rendered. *)
Theorem date_field_rejects_non_string
        (fieldName : string) (rules : JsonRule) (now : Z) (v : value) :
  reportedAsRendered fieldName rules = true ->
  type rules = Some "date" ->
  presentNonString v = true ->
  validator fieldName rules now v
  = (Invalid (mkError (NamedTest (fieldTestName "date" fieldName))
                (orElse (errorMessageType rules) "Date must be a valid string input.")),
     []).
Proof.
  intros _.
  intros Htype Hv. unfold validator, compileField.
  assert (Hn : isString (type rules) "number" = false) by (rewrite Htype; reflexivity).
  assert (Hst : isString (type rules) "string" = false) by (rewrite Htype; reflexivity).
  rewrite Hst, Hn, (isString_true _ _ Htype). cbn [fst].
  rewrite validate_present_plain by (destruct v; try discriminate Hv; reflexivity).
  destruct v; try discriminate Hv; reflexivity.
Qed.

End Facts.

(** ** The theorems at concrete inputs *)

Lemma definitionsJson_nonEmptyString :
  definitionsJson !! "nonEmptyString" = Some nonEmptyString.
Proof. unfold definitionsJson. apply lookup_insert_eq. Defined.

Lemma definitionsJson_doesNotExist : definitionsJson !! "doesNotExist" = None.
Proof.
  unfold definitionsJson.
  rewrite lookup_insert_ne by discriminate.
  rewrite lookup_insert_ne by discriminate.
  apply lookup_empty.
Defined.

(** The field [beneficiaryName] resolved against [nonEmptyString]: the
    kind and the minimum length come from the definition, the maximum
    length from the field. *)
Lemma C3_witness_beneficiaryName :
  exists resolved,
    resolveRule definitionsJson beneficiaryName = inl resolved
    /\ ref resolved = None
    /\ type resolved = Some "string"
    /\ minLength resolved = Some 1
    /\ maxLength resolved = Some 100.
Proof.
  destruct (C3_reference_resolution definitionsJson beneficiaryName nonEmptyString
              "nonEmptyString" eq_refl definitionsJson_nonEmptyString)
    as (resolved & E & Href & Ht & _ & Hmin & Hmax & _).
  exists resolved. repeat split; assumption.
Defined.












(** The field [accountHolder] refers to a definition that does not
    exist; the field [beneficiaryName] is compiled all the same. *)
Lemma missing_definition_witness :
  fst (buildYupSchema [("beneficiaryName", beneficiaryName); ("accountHolder", danglingRule)]
                      definitionsJson) !! "accountHolder" = None
  /\ In (ConsoleWarn "Validation definition not found for $ref: #/definitions/doesNotExist")
        (snd (buildYupSchema [("beneficiaryName", beneficiaryName);
                              ("accountHolder", danglingRule)] definitionsJson))
  /\ fst (buildYupSchema [("beneficiaryName", beneficiaryName);
                          ("accountHolder", danglingRule)] definitionsJson)
     = fst (buildYupSchema [("beneficiaryName", beneficiaryName)] definitionsJson).
Proof.
  apply (missing_definition_field_skipped definitionsJson
           [("beneficiaryName", beneficiaryName)] [] "accountHolder" "doesNotExist"
           danglingRule eq_refl definitionsJson_doesNotExist eq_refl).
  cbn. intros [E|[]]. discriminate E.
Defined.

(** The example of the specification: a maximum length of 100, the
    template "cannot exceed {maxLength} characters", 101 characters. *)
Lemma maxLength_message_witness :
  fst (validator "beneficiaryName" cannotExceed100 0 (VString (repeatChar "a" 101)))
  = Invalid (mkError (NamedTest "is-string-and-valid-beneficiaryName")
               "cannot exceed 100 characters").
Proof.
  apply (maxLength_message "beneficiaryName" cannotExceed100 0 (repeatChar "a" 101) 100);
    reflexivity.
Defined.

(** *** Small checks of the embedding *)

Example trim_spaces : JsString.trim "  a b  " = "a b".
Proof. reflexivity. Qed.

Example replace_first_only :
  JsString.replace "{x}" "1" "{x} and {x}" = "1 and {x}".
Proof. reflexivity. Qed.

Example replace_dollar_patterns : JsString.replace "{x}" "$&$$" "a{x}b" = "a{x}$b".
Proof. reflexivity. Qed.

Example default_required_message :
  requiredMessage "beneficiaryName" emptyRule = "beneficiary name is required".
Proof. reflexivity. Qed.

Example ofZ_prints_decimal :
  (JsString.ofZ 100, JsString.ofZ 0, JsString.ofZ (-17), JsString.ofZ 1000000)
  = ("100", "0", "-17", "1000000").
Proof. reflexivity. Qed.

Example makeDay_epoch : makeDay 1970 1 1 = 0.
Proof. reflexivity. Qed.

Example civil_of_thanksgiving : civil (makeDay 2025 11 27) = (2025, 11, 27).
Proof. reflexivity. Qed.

Example format_pads_the_year :
  format_yyyy_MM_dd (makeDay 987 3 5 * msPerDay + 4000) = "0987-03-05".
Proof. reflexivity. Qed.

Example saturday_is_day_six : getDay sat_2025_06_07 = 6.
Proof. reflexivity. Qed.

Example thirtieth_of_february : parseCalendarDate "2025-02-30" = Some InvalidDate.
Proof. reflexivity. Qed.

Example juneteenth_is_a_holiday :
  isPublicHoliday (Time (makeDay 2025 6 19 * msPerDay + 3600000)) = true.
Proof. reflexivity. Qed.

Example unsupported_warning_text :
  unsupportedTypeWarning "confirmed" booleanRule
  = ConsoleWarn ("Unsupported validation type " ++ dquote ++ "boolean" ++ dquote
                 ++ " for field " ++ dquote ++ "confirmed" ++ dquote ++ ". Using mixed().").
Proof. reflexivity. Qed.

Lemma thanksgiving_witness :
  isPublicHoliday (Time (makeDay 2025 11 27 * msPerDay + 3600000))
  = isHolidayOf2025 (getFullYear (makeDay 2025 11 27 * msPerDay + 3600000))
                    (getMonth1 (makeDay 2025 11 27 * msPerDay + 3600000))
                    (getDate (makeDay 2025 11 27 * msPerDay + 3600000)).
Proof.
  apply (isPublicHoliday_years_1_to_9999 (makeDay 2025 11 27 * msPerDay + 3600000)).
  change (getFullYear (makeDay 2025 11 27 * msPerDay + 3600000)) with 2025. lia.
Defined.

(** An empty memo. *)
Lemma optional_memo_witness :
  validator "memo" shortMemo 0 (VString "  ") = (Valid, []).
Proof.
  apply (optional_field_accepts_no_value "memo" shortMemo 0 (VString "  ")); reflexivity.
Defined.

(** Juneteenth 2025, a Thursday, seen from the Wednesday of the week
    before. *)
Lemma date_field_witness :
  validator "transferDate" validDate wed_2025_06_11_noon (VString "2025-06-19")
  = (match parseISO "2025-06-19" with
     | InvalidDate =>
         Invalid (mkError (NamedTest (fieldTestName "date" "transferDate"))
                    (orElse (errorMessageType validDate) "Please enter a valid date."))
     | Time t =>
         chainOutcome (fieldTestName "date" "transferDate")
           (customRuleCheck validDate t ++ minDateCheck validDate wed_2025_06_11_noon t)%list
     end, []).
Proof.
  apply (date_field_checks "transferDate" validDate wed_2025_06_11_noon "2025-06-19");
    [reflexivity | reflexivity | discriminate].
Defined.

Example juneteenth_is_rejected :
  fst (validator "transferDate" validDate wed_2025_06_11_noon (VString "2025-06-19"))
  = Invalid (mkError (NamedTest "is-date-and-valid-transferDate")
               "Transfer date cannot be a weekend or public holiday.").
Proof. reflexivity. Qed.

Example year_padded_with_zeros : format_yyyy_MM_dd (makeDay 7 1 2 * msPerDay) = "0007-01-02".
Proof. reflexivity. Qed.

(** ** More examples *)

(** An amount of zero is under the minimum. *)
Lemma number_field_witness :
  validator "amount" wholeAmount 0 (VString "0")
  = (Invalid (mkError (NamedTest "is-number-and-valid-amount")
                "Amount must be greater than $0.00."), []).
Proof.
  exact (number_field_checks "amount" wholeAmount 0 (VString "0")
           eq_refl eq_refl eq_refl).
Defined.

(** A memo of five characters. *)
Lemma string_field_accepts_witness :
  fst (validator "memo" shortMemo 0 (VString "hello")) = Valid.
Proof.
  apply (proj2 (string_field_accepts_iff_all_checks_hold
                  "memo" shortMemo 0 (VString "hello") eq_refl eq_refl)).
  exists "hello". split; reflexivity.
Defined.

(** The Thursday after the Wednesday of the request. *)
Lemma date_field_accepts_witness :
  fst (validator "transferDate" validDate wed_2025_06_11_noon (VString "2025-06-12"))
  = Valid.
Proof.
  apply (proj2 (date_field_accepts_iff_all_checks_hold
                  "transferDate" validDate wed_2025_06_11_noon "2025-06-12"
                  (makeDay 2025 6 12 * msPerDay) eq_refl ltac:(discriminate) eq_refl)).
  reflexivity.
Defined.


Lemma resolveRule_idempotent_witness :
  truthy (ref (deleteRef (spread nonEmptyString beneficiaryName))) = None
  /\ resolveRule ∅ (deleteRef (spread nonEmptyString beneficiaryName))
     = inl (deleteRef (spread nonEmptyString beneficiaryName)).
Proof.
  apply (resolveRule_idempotent definitionsJson ∅ beneficiaryName
           (deleteRef (spread nonEmptyString beneficiaryName))).
  reflexivity.
Defined.

Lemma reference_only_witness :
  exists rules,
    resolveRule definitionsJson (referenceOnly "validDate") = inl rules
    /\ validator "transferDate" rules wed_2025_06_11_noon (VString "2025-06-07")
       = validator "transferDate" validDate wed_2025_06_11_noon (VString "2025-06-07").
Proof.
  apply (reference_only_field_validates_as_definition
           definitionsJson "validDate" "transferDate" validDate
           wed_2025_06_11_noon (VString "2025-06-07")).
  reflexivity.
Defined.

Lemma buildYupSchema_lookup_witness :
  fst (buildYupSchema memoAndDate definitionsJson) !! "transferDate"
  = Some (fst (compileField "transferDate" validDate)).
Proof.
  assert (Hnd : NoDup (map fst memoAndDate)).
  { apply NoDup_ListNoDup. repeat constructor; cbn; intuition discriminate. }
  assert (Hproto : ~ In "__proto__" (map fst memoAndDate)).
  { cbn. intuition discriminate. }
  apply (proj2 (buildYupSchema_lookup memoAndDate definitionsJson "transferDate"
                  (fst (compileField "transferDate" validDate)) Hproto Hnd)).
  exists (referenceOnly "validDate"), validDate.
  split; [right; now left|]. split; reflexivity.
Defined.

Lemma format_then_parse_witness :
  parseISO (format_yyyy_MM_dd wed_2025_06_11_noon) = Time (startOfDay wed_2025_06_11_noon)
  /\ (wed_2025_06_11_noon mod msPerDay = 0 ->
      parseISO (format_yyyy_MM_dd wed_2025_06_11_noon) = Time wed_2025_06_11_noon).
Proof.
  apply (format_then_parse_is_start_of_day wed_2025_06_11_noon).
  change (getFullYear wed_2025_06_11_noon) with 2025. lia.
Defined.

Lemma holiday_is_never_a_weekend_day_witness : isWeekend (Time thanksgiving_1am) = false.
Proof.
  apply (holiday_is_never_a_weekend_day thanksgiving_1am).
  - change (getFullYear thanksgiving_1am) with 2025. lia.
  - reflexivity.
Defined.


Example amount_over_the_maximum :
  fst (validator "amount" wholeAmount 0 (VString "1000001"))
  = Invalid (mkError (NamedTest "is-number-and-valid-amount")
               "Amount cannot exceed $1000000.").
Proof. reflexivity. Qed.

Example amount_that_is_no_number :
  fst (validator "amount" wholeAmount 0 (VString "ten"))
  = Invalid (mkError (NamedTest "is-number-and-valid-amount")
               "Amount must be a valid number.").
Proof. reflexivity. Qed.

Example unknown_form_key_is_rejected :
  fst (fetchFormSpecificConfigFromDB "loanApplication")
  = Rejected "No mock validation config found for key: loanApplication".
Proof. reflexivity. Qed.

Example form_of_the_shipped_configuration (n_0_01 n_1000000 : num) :
  renderForm (loadValidation (fst (getWireTransferValidationSetup n_0_01 n_1000000))
                             initialFormState)
  = FormView [SStr "USD"; SStr "CAD"; SStr "EUR"; SStr "GBP"].
Proof. reflexivity. Qed.


(** A checkbox in the place of the date. *)
Lemma date_non_string_witness :
  validator "transferDate" validDate 0 (VBool true)
  = (Invalid (mkError (NamedTest "is-date-and-valid-transferDate")
                "Please enter a valid date."), []).
Proof.
  exact (date_field_rejects_non_string "transferDate" validDate 0 (VBool true)
           eq_refl eq_refl eq_refl).
Defined.

Example token_for_yup : plain "Max ${max} chars" = false.
Proof. reflexivity. Qed.

Example dollar_amount_is_plain : plain "Amount cannot exceed $1000000." = true.
Proof. reflexivity. Qed.

Example spoken_field_name : spokenName "beneficiaryAccountNumber" = "beneficiary account number".
Proof. reflexivity. Qed.

Example token_in_a_template :
  reportedAsRendered "memo"
    (mkRule (Some "string") (Some false) None (Some 5) None None None None None None
            None None (Some "Max ${max} chars") None None None None None None None None)
  = false.
Proof. reflexivity. Qed.
